(** * site_searcher.py: extraction engine, record builder and output serializer

    A shallow embedding of [src/site_searcher.py].  The third-party
    libraries the script calls (requests, selenium, BeautifulSoup with its
    selector engine, lxml, urllib's urljoin) are interfaces here: the
    functions of the script are defined over any implementation of them,
    and the theorems about the script hold for all implementations.
    Module [Dom] gives one small executable implementation, used to run the
    script on concrete pages. *)

From Stdlib Require Import Ascii ZArith.
From stdpp Require Import base list strings gmap pretty.

Set Warnings "-clear-no-such-hyp".

Local Open Scope stdpp_scope.

(** * Python values, exceptions, strings and dicts

    A Python [str] is a [string], one [ascii] for each character (code
    points up to 255); its length is [String.length]. *)

Module Py.

(** The values that records hold: [None], a [str], or the list of strings
    BeautifulSoup returns for a multi-valued attribute such as [class]. *)
Inductive pyval :=
| PNone
| PStr (s : string)
| PList (l : list string).

#[global] Instance pyval_eq_dec : EqDecision pyval.
Proof. solve_decision. Defined.

(** Truth value of a string, of an optional string ([None] is false) and
    of a value, as [if x:] tests them. *)
Definition str_truthy (s : string) : bool :=
  match s with EmptyString => false | String _ _ => true end.

Definition opt_truthy (o : option string) : bool :=
  match o with None => false | Some s => str_truthy s end.

Definition truthy (v : pyval) : bool :=
  match v with
  | PNone => false
  | PStr s => str_truthy s
  | PList l => match l with [] => false | _ :: _ => true end
  end.

(** An exception: its class name and its message ([str(e)]). *)
Record exception := Exception { exn_class : string; exn_msg : string }.

Definition TypeError := Exception "TypeError".
Definition ValueError := Exception "ValueError".
Definition RuntimeError := Exception "RuntimeError".

(** A call either returns or raises. *)
Inductive result (A : Type) :=
| Ok (a : A)
| Raise (e : exception).
Arguments Ok {A} a.
Arguments Raise {A} e.

#[global] Instance result_ret : MRet result := @Ok.
#[global] Instance result_bind : MBind result := λ A B f m,
  match m with Ok a => f a | Raise e => Raise e end.

(** [for x in xs: out.append(f(x))], stopping at the first exception. *)
Fixpoint for_each {A B} (f : A → result B) (xs : list A) : result (list B) :=
  match xs with
  | [] => Ok []
  | x :: xs' => y ← f x; ys ← for_each f xs'; Ok (y :: ys)
  end.

(** ** Strings *)

(** [str.isspace] on one character (code points up to 255). *)
Definition isspace (c : ascii) : bool :=
  let n := nat_of_ascii c in
  ((9 <=? n) && (n <=? 13) || (28 <=? n) && (n <=? 32)
   || (n =? 133) || (n =? 160))%nat.

Fixpoint lstrip (s : string) : string :=
  match s with
  | EmptyString => EmptyString
  | String c s' => if isspace c then lstrip s' else s
  end.

Definition rstrip (s : string) : string :=
  String.rev (lstrip (String.rev s)).

(** [s.strip()] *)
Definition strip (s : string) : string := rstrip (lstrip s).

(** [sep.join(parts)] *)
Fixpoint join (sep : string) (parts : list string) : string :=
  match parts with
  | [] => EmptyString
  | [p] => p
  | p :: ps => p +:+ sep +:+ join sep ps
  end.

(** [s[:n]] *)
Fixpoint slice_to (n : nat) (s : string) : string :=
  match n, s with
  | O, _ => EmptyString
  | S _, EmptyString => EmptyString
  | S n', String c s' => String c (slice_to n' s')
  end.
#[global] Arguments slice_to : simpl never.

Fixpoint startswith (s p : string) : bool :=
  match p, s with
  | EmptyString, _ => true
  | String _ _, EmptyString => false
  | String a p', String b s' => bool_decide (a = b) && startswith s' p'
  end.

(** [s.endswith(suffix)] *)
Definition endswith (s suffix : string) : bool :=
  startswith (String.rev s) (String.rev suffix).

(** ** Dicts with string keys, in insertion order *)

Definition dict := list (string * pyval).

(** [d.get(k)] / [k in d] *)
Fixpoint dict_get (k : string) (d : dict) : option pyval :=
  match d with
  | [] => None
  | (k', v) :: d' => if decide (k' = k) then Some v else dict_get k d'
  end.

(** [d.get(k, default)] *)
Definition dict_get_default (k : string) (default : pyval) (d : dict) : pyval :=
  from_option id default (dict_get k d).

(** [d[k] = v]: an existing key keeps its place, a new one goes last. *)
Fixpoint dict_set (k : string) (v : pyval) (d : dict) : dict :=
  match d with
  | [] => [(k, v)]
  | (k', v') :: d' =>
      if decide (k' = k) then (k, v) :: d' else (k', v') :: dict_set k v d'
  end.

(** [d.keys()] *)
Definition dict_keys (d : dict) : list string := d.*1.

(** [{k: f(k) for k in ks}] *)
Definition dict_comprehension (f : string → pyval) (ks : list string) : dict :=
  foldl (λ d k, dict_set k (f k) d) [] ks.

End Py.
Import Py.

(** * The libraries the script calls *)

Module Lib.

(** BeautifulSoup: [BeautifulSoup(html, "lxml")], [soup.select(sel)] and,
    on a matched tag, [get_text(strip=True)], [get(name)], [name] and
    [str(tag)].  Parsing and selecting can raise. *)
Record BS4 := {
  Soup : Type;
  Tag : Type;
  BeautifulSoup : string → result Soup;
  select : Soup → string → result (list Tag);
  get_text_strip : Tag → string;
  tag_get : Tag → string → pyval;
  tag_name : Tag → string;
  tag_str : Tag → string;
}.

(** One item of the list an XPath query returns: a string result
    ([_ElementUnicodeResult] or [str]) or an element. *)
Inductive xpath_item (E : Type) :=
| XStr (s : string)
| XElem (e : E).
Arguments XStr {E} s.
Arguments XElem {E} e.

(** What [doc.xpath(q)] returns: a list of items, or a scalar. *)
Inductive xpath_value (E : Type) :=
| XList (items : list (xpath_item E))
| XString (s : string)
| XNumber
| XBool.
Arguments XList {E} items.
Arguments XString {E} s.
Arguments XNumber {E}.
Arguments XBool {E}.

(** lxml: [lxml.html.fromstring(html)], [doc.xpath(q)] and, on an element,
    [itertext()], [get(name)], [tag] and
    [lxml.html.tostring(n, encoding="unicode")].  The elements are the nodes
    with a tag name; comments and processing instructions are not among
    them. *)
Record LXML := {
  Element : Type;
  fromstring : string → result Element;
  xpath : Element → string → result (xpath_value Element);
  itertext : Element → list string;
  elem_get : Element → string → option string;
  elem_tag : Element → string;
  tostring : Element → string;
}.

(** The order in which [list(s)] enumerates a set of strings: some
    enumeration of its members, each once.  The order is taken to depend on
    the members alone, not on the order in which they were added. *)
Record SetOrder := {
  list_of_set : gset string → list string;
  list_of_set_perm : ∀ s, list_of_set s ≡ₚ elements s;
}.

End Lib.
Import Lib.


(** * The record builder: [parse_with_selector] and [parse_with_xpath] *)

Section Extraction.

Context (bs : BS4) (lx : LXML).

(** [urllib.parse.urljoin] on two strings. *)
Context (urljoin : string → string → string).

(** [urljoin(base, val)] on the values the script hands it: a false [val]
    gives [base] back, a string is joined, a non-empty list is refused
    (str and non-str arguments cannot be mixed).  [base] is a non-empty
    string wherever the script calls it.  The join of two strings is taken
    to return; a reference that [urljoin] itself refuses is outside this
    model. *)
Definition py_urljoin (base : string) (val : pyval) : result pyval :=
  match val with
  | PStr s => if str_truthy s then Ok (PStr (urljoin base s)) else Ok (PStr base)
  | PNone => Ok (PStr base)
  | PList [] => Ok (PStr base)
  | PList (_ :: _) => Raise (TypeError "Cannot mix str and non-str arguments")
  end.

(** [attr in ("href", "src")] *)
Definition is_url_attr (attr : string) : bool :=
  bool_decide (attr = "href") || bool_decide (attr = "src").

(** Lines 70-73 and 97-99:
    [if val and base_url: if attr in ("href", "src"): val = urljoin(base_url, val)] *)
Definition resolve (attr base_url : string) (val : pyval) : result pyval :=
  if truthy val && str_truthy base_url then
    if is_url_attr attr then py_urljoin base_url val else Ok val
  else Ok val.

(** Lines 68-74 and 95-100: the [if attr:] block, given [el.get(attr)]. *)
Definition set_attr (attr : option string) (base_url : string)
    (get : string → pyval) (item : dict) : result dict :=
  match attr with
  | Some a =>
      if str_truthy a then
        val ← resolve a base_url (get a);
        Ok (dict_set a val item)
      else Ok item
  | None => Ok item
  end.

(** The body of the loop of [parse_with_selector] (lines 65-78): the record
    of one matched tag. *)
Definition selector_item (base_url : string) (attr : option string)
    (text : bool) (el : Tag bs) : result dict :=
  let item : dict := [] in
  let item := if text then dict_set "text" (PStr (get_text_strip bs el)) item
              else item in
  item ← set_attr attr base_url (tag_get bs el) item;
  let item := dict_set "tag" (PStr (tag_name bs el)) item in
  let item := dict_set "html" (PStr (slice_to 1000 (tag_str bs el))) item in
  Ok item.

Definition parse_with_selector (html selector base_url : string)
    (attr : option string) (text : bool) : result (list dict) :=
  soup ← BeautifulSoup bs html;
  elems ← select bs soup selector;
  for_each (selector_item base_url attr text) elems.

(** [n.get(attr)] of lxml as a Python value. *)
Definition elem_get_val (n : Element lx) (a : string) : pyval :=
  from_option PStr PNone (elem_get lx n a).

(** The body of the loop of [parse_with_xpath] (lines 88-103): the record
    of one result of the query. *)
Definition xpath_item_record (base_url : string) (attr : option string)
    (text : bool) (n : xpath_item (Element lx)) : result dict :=
  let item : dict := [] in
  match n with
  | XStr s => Ok (dict_set "text" (PStr s) item)
  | XElem n =>
      let item := if text
                  then dict_set "text"
                         (PStr (strip (join EmptyString (itertext lx n)))) item
                  else item in
      item ← set_attr attr base_url (elem_get_val n) item;
      let item := dict_set "tag" (PStr (elem_tag lx n)) item in
      let item := dict_set "html" (PStr (slice_to 1000 (tostring lx n))) item in
      Ok item
  end.

(** [for n in nodes]: a list is walked item by item, a string character by
    character (each one a [str]), a number or a boolean cannot be iterated. *)
Definition iter_nodes (nodes : xpath_value (Element lx))
    : result (list (xpath_item (Element lx))) :=
  match nodes with
  | XList items => Ok items
  | XString s => Ok ((λ c, XStr (String c EmptyString)) <$> String.list_ascii_of_string s)
  | XNumber => Raise (TypeError "'float' object is not iterable")
  | XBool => Raise (TypeError "'bool' object is not iterable")
  end.

(** The query is [None] when [main] takes the XPath branch without an
    [--xpath] argument; lxml then refuses it. *)
Definition parse_with_xpath (html : string) (xpath_query : option string)
    (base_url : string) (attr : option string) (text : bool)
    : result (list dict) :=
  doc ← fromstring lx html;
  nodes ← match xpath_query with
          | Some q => xpath lx doc q
          | None => Raise (TypeError "Argument must be bytes or unicode, got 'NoneType'")
          end;
  items ← iter_nodes nodes;
  for_each (xpath_item_record base_url attr text) items.

(** The record of an element under the Path Strategy without the error
    cases, which do not arise in this model: the attribute values of lxml
    are strings, and the join of strings is taken to return (lemma
    [xpath_item_record_elem]). *)
Definition xpath_element_record (base_url : string)
    (attr : option string) (text : bool) (n : Element lx) : dict :=
  let item : dict :=
    if text then [("text", PStr (strip (join EmptyString (itertext lx n))))]
    else [] in
  let item :=
    match attr with
    | Some a =>
        if str_truthy a then
          dict_set a
            (match elem_get lx n a with
             | Some s => PStr (if str_truthy s && str_truthy base_url && is_url_attr a
                               then urljoin base_url s else s)
             | None => PNone
             end) item
        else item
    | None => item
    end in
  dict_set "html" (PStr (slice_to 1000 (tostring lx n)))
    (dict_set "tag" (PStr (elem_tag lx n)) item).

Definition xpath_record (base_url : string)
    (attr : option string) (text : bool) (n : xpath_item (Element lx)) : dict :=
  match n with
  | XStr s => [("text", PStr s)]
  | XElem e => xpath_element_record base_url attr text e
  end.

End Extraction.


(** * The process: files, standard streams, network *)

Module Sys.

(** What a file holds: the sequence of writes made to it since it was
    opened for writing, a text written as it is or a row handed to
    [csv.writer]. *)
Inductive chunk :=
| Written (s : string)
| CsvRow (cells : list pyval).

Record world := World {
  files : gmap string (list chunk);
  stdout : list string;
  stderr : list string;
}.

(** A step of the script: it changes the world and returns or raises. *)
Definition io (A : Type) : Type := world → result A * world.

#[global] Instance io_ret : MRet io := λ A a w, (Ok a, w).
#[global] Instance io_bind : MBind io := λ A B f m w,
  match m w with
  | (Ok a, w') => f a w'
  | (Raise e, w') => (Raise e, w')
  end.

(** A call that can raise and leaves the world alone. *)
Definition lift {A} (r : result A) : io A := λ w, (r, w).

(** [open(path, "w")]: the file exists and is empty afterwards (the
    destination is taken to be writable). *)
Definition open_w (path : string) : io unit := λ w,
  (Ok (), World (<[path := []]> (files w)) (stdout w) (stderr w)).

Definition write (path : string) (c : chunk) : io unit := λ w,
  (Ok (), World (alter (λ cs, cs ++ [c]) path (files w)) (stdout w) (stderr w)).

(** [print(line)] and [print(line, file=sys.stderr)] *)
Definition print (line : string) : io unit := λ w,
  (Ok (), World (files w) (stdout w ++ [line]) (stderr w)).

Definition eprint (line : string) : io unit := λ w,
  (Ok (), World (files w) (stdout w) (stderr w ++ [line])).

(** [for x in xs: body(x)] *)
Fixpoint io_for {A} (body : A → io unit) (xs : list A) : io unit :=
  match xs with
  | [] => mret ()
  | x :: xs' => _ ← body x; io_for body xs'
  end.

(** The answer of [requests.get]. *)
Record response := Response { status_code : Z; response_text : string }.

(** The network as the script reaches it: [requests.get(url, headers=...,
    timeout=...)], whether the selenium imports succeeded, and a Chrome
    session from [webdriver.Chrome(...)] to [driver.quit()], which gives the
    page source or raises. *)
Record Net := {
  requests_get : string → Z → result response;
  SELENIUM_AVAILABLE : bool;
  chrome_session : string → Z → bool → result string;
}.

End Sys.
Import Sys.

(** * The output serializer: [save_output] *)

Module Json.

Definition dquote : ascii := ascii_of_nat 34.
Definition backslash : ascii := ascii_of_nat 92.
Definition newline : string := String (ascii_of_nat 10) EmptyString.

Definition hex_digit (n : nat) : ascii :=
  match String.get n "0123456789abcdef" with Some c => c | None => "0"%char end.

(** One character inside a JSON string, with [ensure_ascii=False]: the
    quote, the backslash and the control characters are escaped, every
    other character is written as it is. *)
Definition escape_char (c : ascii) : string :=
  let n := nat_of_ascii c in
  let esc (x : ascii) := String backslash (String x EmptyString) in
  if (n =? 34)%nat then esc dquote
  else if (n =? 92)%nat then esc backslash
  else if (n =? 8)%nat then esc "b"%char
  else if (n =? 12)%nat then esc "f"%char
  else if (n =? 10)%nat then esc "n"%char
  else if (n =? 13)%nat then esc "r"%char
  else if (n =? 9)%nat then esc "t"%char
  else if (n <? 32)%nat then
    String backslash ("u00" +:+ String (hex_digit (n / 16))
                                  (String (hex_digit (n mod 16)) EmptyString))
  else String c EmptyString.

Fixpoint escape (s : string) : string :=
  match s with
  | EmptyString => EmptyString
  | String c s' => escape_char c +:+ escape s'
  end.

Definition encode_str (s : string) : string :=
  String dquote (escape s +:+ String dquote EmptyString).

(** A line break followed by the indentation of nesting depth [level]
    ([indent=2]). *)
Definition newline_indent (level : nat) : string :=
  newline +:+ join EmptyString (replicate (2 * level) " ").

(** A list whose items are already encoded, at nesting depth [level]. *)
Definition encode_list (level : nat) (items : list string) : string :=
  match items with
  | [] => "[]"
  | _ :: _ =>
      "[" +:+ newline_indent (S level)
          +:+ join ("," +:+ newline_indent (S level)) items
          +:+ newline_indent level +:+ "]"
  end.

Definition encode_value (level : nat) (v : pyval) : string :=
  match v with
  | PNone => "null"
  | PStr s => encode_str s
  | PList l => encode_list level (encode_str <$> l)
  end.

Definition encode_dict (level : nat) (d : dict) : string :=
  match d with
  | [] => "{}"
  | _ :: _ =>
      "{" +:+ newline_indent (S level)
          +:+ join ("," +:+ newline_indent (S level))
                ((λ kv, encode_str kv.1 +:+ ": " +:+ encode_value (S level) kv.2)
                   <$> d)
          +:+ newline_indent level +:+ "}"
  end.

(** [json.dumps(items, ensure_ascii=False, indent=2)] *)
Definition dumps (items : list dict) : string :=
  encode_list 0 (encode_dict 1 <$> items).

End Json.

Module Csv.

(** [csv.DictWriter(f, fieldnames=...)._dict_to_list(rowdict)]: a key
    outside the field names is refused, a missing one gives the empty
    string. *)
Definition dict_to_list (fieldnames : list string) (rowdict : dict)
    : result (list pyval) :=
  if forallb (λ k, bool_decide (k ∈ fieldnames)) (dict_keys rowdict)
  then Ok ((λ k, dict_get_default k (PStr "") rowdict) <$> fieldnames)
  else Raise (ValueError "dict contains fields not in fieldnames").

(** [writer.writerow(rowdict)] on the file at [path]. *)
Definition writerow (path : string) (fieldnames : list string) (rowdict : dict)
    : io unit :=
  row ← lift (dict_to_list fieldnames rowdict);
  write path (CsvRow row).

(** [writer.writeheader()]: the row of the dict that maps every field name
    to itself. *)
Definition writeheader (path : string) (fieldnames : list string) : io unit :=
  writerow path fieldnames (dict_comprehension PStr fieldnames).

End Csv.

Section Output.

Context (order : SetOrder).

(** Lines 117-119: [keys = set()], then [keys.update(it.keys())] for every
    item. *)
Definition unify_keys (items : list dict) : gset string :=
  foldl (λ keys it, keys ∪ list_to_set (dict_keys it)) ∅ items.

Definition wrote_message (n : nat) (output_path : string) : string :=
  "Wrote " +:+ pretty n +:+ " items to " +:+ output_path.

Definition save_output (items : list dict) (output_path : string) : io unit :=
  if endswith output_path ".json" then
    _ ← open_w output_path;
    _ ← write output_path (Written (Json.dumps items));
    print (wrote_message (length items) output_path)
  else
    match items with
    | [] => print "No items to write."
    | _ :: _ =>
        let keys := unify_keys items in
        let keys := list_of_set order keys in
        _ ← open_w output_path;
        _ ← Csv.writeheader output_path keys;
        _ ← io_for (λ it,
               Csv.writerow output_path keys
                 (dict_comprehension (λ k, dict_get_default k (PStr "") it) keys))
             items;
        print (wrote_message (length items) output_path)
    end.

End Output.


(** * Fetching, and [main] *)

Section Main.

Context (net : Net) (bs : BS4) (lx : LXML) (order : SetOrder).
Context (urljoin : string → string → string).

Definition HTTPError := Exception "HTTPError".

(** [r.raise_for_status()] *)
Definition raise_for_status (r : response) : result unit :=
  if ((400 <=? status_code r) && (status_code r <? 500))%Z
  then Raise (HTTPError "Client Error")
  else if ((500 <=? status_code r) && (status_code r <? 600))%Z
  then Raise (HTTPError "Server Error")
  else Ok ().

Definition fetch_static (url : string) (timeout : Z) : result string :=
  r ← requests_get net url timeout;
  _ ← raise_for_status r;
  Ok (response_text r).

Definition fetch_with_selenium (url : string) (timeout : Z) (headless : bool)
    : result string :=
  if negb (SELENIUM_AVAILABLE net) then
    Raise (RuntimeError
      "Selenium or webdriver-manager not installed. Install requirements or run without --headless.")
  else chrome_session net url timeout headless.

(** The namespace [parser.parse_args()] returns. *)
Record Args := {
  args_url : string;
  args_selector : option string;
  args_xpath : option string;
  args_attr : option string;
  args_text : bool;
  args_headless : bool;
  args_output : string;
  args_timeout : Z;
}.

(** Lines 143-146: the page source, by the browser or by a plain request. *)
Definition fetch_stage (args : Args) : result string :=
  if args_headless args
  then fetch_with_selenium (args_url args) (args_timeout args) true
  else fetch_static (args_url args) (args_timeout args).

(** Lines 153-156: the records, by the selector when [args.selector] is
    true and by the XPath query otherwise. *)
Definition parse_stage (args : Args) (html : string) : result (list dict) :=
  if opt_truthy (args_selector args)
  then parse_with_selector bs urljoin html
         (default EmptyString (args_selector args)) (args_url args)
         (args_attr args) (args_text args)
  else parse_with_xpath lx urljoin html (args_xpath args) (args_url args)
         (args_attr args) (args_text args).

(** [main] after [parse_args]: the exit status of the process and the world
    it leaves.  An exception that escapes [save_output] ends the process
    with status 1. *)
Definition main (args : Args) (w : world) : Z * world :=
  match fetch_stage args with
  | Raise e => (2%Z, (eprint ("Failed to fetch page: " +:+ exn_msg e) w).2)
  | Ok html =>
      match parse_stage args html with
      | Raise e => (3%Z, (eprint ("Failed to parse page: " +:+ exn_msg e) w).2)
      | Ok items =>
          match save_output order items (args_output args) w with
          | (Ok _, w') => (0%Z, w')
          | (Raise e, w') =>
              (1%Z, (eprint (exn_class e +:+ ": " +:+ exn_msg e) w').2)
          end
      end
  end.

End Main.


(** * A small implementation of the libraries

    Enough of an HTML parser (elements with explicit closing tags, attribute
    values without white space), a selector engine (type selectors and [*])
    and an XPath engine ([//tag], [//tag/text()], [//tag/@name]) to run the
    script on small pages.  Markup and queries outside this fragment are
    refused. *)

Module Dom.

#[warnings="-register-all"]
Inductive node :=
| Text (s : string)
| Elem (tag : string) (attrs : list (string * string)) (children : list node).

Definition ParserError := Exception "ParserError".
Definition SelectorSyntaxError := Exception "SelectorSyntaxError".
Definition XPathEvalError := Exception "XPathEvalError".

(** ** Parsing *)

(** The markup cut at its angle brackets: the texts between tags ([false])
    and the insides of tags ([true]), in order.  [acc] holds the current
    piece backwards. *)
Fixpoint pieces (inside : bool) (acc : string) (s : string)
    : result (list (bool * string)) :=
  match s with
  | EmptyString =>
      if inside then Raise (ParserError "tag not closed")
      else Ok (if str_truthy acc then [(false, String.rev acc)] else [])
  | String c s' =>
      if inside then
        if bool_decide (c = ">"%char)
        then ps ← pieces false EmptyString s'; Ok ((true, String.rev acc) :: ps)
        else pieces true (String c acc) s'
      else
        if bool_decide (c = "<"%char)
        then ps ← pieces true EmptyString s';
             Ok (if str_truthy acc then (false, String.rev acc) :: ps else ps)
        else pieces false (String c acc) s'
  end.

(** [s] up to the first [c], and what follows that [c] if there is one. *)
Fixpoint split_at (c : ascii) (s : string) : string * option string :=
  match s with
  | EmptyString => (EmptyString, None)
  | String a s' =>
      if bool_decide (a = c) then (EmptyString, Some s')
      else let '(l, r) := split_at c s' in (String a l, r)
  end.

Definition is_quote (c : ascii) : bool :=
  bool_decide (c = "'"%char) || bool_decide (c = Json.dquote).

(** An attribute value without the quotes around it. *)
Definition unquote (v : string) : string :=
  match v with
  | String q v' =>
      if is_quote q then
        match String.rev v' with
        | String q' r => if bool_decide (q' = q) then String.rev r else v
        | EmptyString => v
        end
      else v
  | EmptyString => v
  end.

Definition attribute (word : string) : string * string :=
  let '(k, v) := split_at "="%char word in (k, unquote (default EmptyString v)).

Inductive token :=
| TOpen (tag : string) (attrs : list (string * string))
| TClose (tag : string)
| TText (s : string).

Definition tokenize (p : bool * string) : result token :=
  let '(is_tag, s) := p in
  if is_tag then
    match s with
    | String "/" name => Ok (TClose name)
    | _ => match String.words s with
           | name :: ws => Ok (TOpen name (attribute <$> ws))
           | [] => Raise (ParserError "empty tag")
           end
    end
  else Ok (TText s).

(** An element being read: its tag, its attributes and the children read
    so far, last first. *)
Definition frame : Type := string * list (string * string) * list node.

Definition add_child (n : node) (f : frame) : frame :=
  let '(t, a, cs) := f in (t, a, n :: cs).

Definition close (f : frame) : node :=
  let '(t, a, cs) := f in Elem t a (reverse cs).

Fixpoint build (toks : list token) (stack : list frame) : result node :=
  match toks with
  | [] => match stack with
          | [root] => Ok (close root)
          | _ => Raise (ParserError "element not closed")
          end
  | TText s :: toks' =>
      match stack with
      | f :: stack' => build toks' (add_child (Text s) f :: stack')
      | [] => Raise (ParserError "no document")
      end
  | TOpen t a :: toks' => build toks' ((t, a, []) :: stack)
  | TClose t :: toks' =>
      match stack with
      | f :: parent :: stack' =>
          if bool_decide (f.1.1 = t)
          then build toks' (add_child (close f) parent :: stack')
          else Raise (ParserError "mismatched closing tag")
      | _ => Raise (ParserError "unexpected closing tag")
      end
  end.

(** The document object: a root named as BeautifulSoup names it, with the
    top-level nodes of the page as children. *)
Definition parse (html : string) : result node :=
  ps ← pieces false EmptyString html;
  toks ← for_each tokenize ps;
  build toks [("[document]", [], [])].

(** ** Walking the tree *)

(** The text nodes below [n], in document order. *)
Fixpoint strings (n : node) : list string :=
  match n with
  | Text s => [s]
  | Elem _ _ cs => flat_map strings cs
  end.

(** The elements at or below [n], in document order. *)
Fixpoint elements_at (n : node) : list node :=
  match n with
  | Text _ => []
  | Elem _ _ cs => n :: flat_map elements_at cs
  end.

Definition children_of (n : node) : list node :=
  match n with Text _ => [] | Elem _ _ cs => cs end.

Definition descendants (n : node) : list node :=
  flat_map elements_at (children_of n).

Definition tag_of (n : node) : string :=
  match n with Text _ => EmptyString | Elem t _ _ => t end.

Definition attr_of (n : node) (k : string) : option string :=
  match n with
  | Text _ => None
  | Elem _ attrs _ => snd <$> find (λ kv, bool_decide (kv.1 = k)) attrs
  end.

Fixpoint to_markup (n : node) : string :=
  match n with
  | Text s => s
  | Elem t attrs cs =>
      "<" +:+ t
        +:+ join EmptyString
              ((λ kv, " " +:+ kv.1 +:+ "="
                       +:+ String Json.dquote (kv.2 +:+ String Json.dquote EmptyString))
                 <$> attrs)
        +:+ ">" +:+ join EmptyString (to_markup <$> cs)
        +:+ "</" +:+ t +:+ ">"
  end.

(** ** BeautifulSoup *)

Definition is_alnum (c : ascii) : bool :=
  let n := nat_of_ascii c in
  ((48 <=? n) && (n <=? 57) || (65 <=? n) && (n <=? 90)
   || (97 <=? n) && (n <=? 122))%nat.

(** A tag name, or [*]. *)
Definition is_name_test (s : string) : bool :=
  bool_decide (s = "*")
  || str_truthy s && forallb is_alnum (String.list_ascii_of_string s).

Definition name_matches (test : string) (n : node) : bool :=
  bool_decide (test = "*") || bool_decide (tag_of n = test).

(** [soup.select(sel)]: a selector that is no name test, the empty one
    included, is a syntax error. *)
Definition select (soup : node) (sel : string) : result (list node) :=
  if is_name_test sel
  then Ok (filter (λ n, name_matches sel n) (descendants soup))
  else Raise (SelectorSyntaxError "Invalid or missing selector").

(** [el.get_text(strip=True)]: every text node below [el] is stripped on
    its own, the ones left empty are dropped, and the rest are joined by
    the empty separator. *)
Definition get_text_strip (el : node) : string :=
  join EmptyString (filter (λ s, str_truthy s) (strip <$> strings el)).

(** [el.get(k)]: the value of a [class] attribute is the list of its
    words. *)
Definition tag_get (el : node) (k : string) : pyval :=
  match attr_of el k with
  | None => PNone
  | Some v => if bool_decide (k = "class") then PList (String.words v)
              else PStr v
  end.

Definition bs4 : BS4 := {|
  Lib.Soup := node;
  Lib.Tag := node;
  Lib.BeautifulSoup := parse;
  Lib.select := select;
  Lib.get_text_strip := get_text_strip;
  Lib.tag_get := tag_get;
  Lib.tag_name := tag_of;
  Lib.tag_str := to_markup;
|}.

(** ** lxml *)

Definition text_children (n : node) : list string :=
  flat_map (λ c, match c with Text s => [s] | Elem _ _ _ => [] end)
    (children_of n).

(** [doc.xpath(q)] for [//name], [//name/text()] and [//name/@attr]. *)
Definition xpath (doc : node) (q : string) : result (xpath_value node) :=
  match q with
  | String "/" (String "/" path) =>
      let '(name, step) := split_at "/"%char path in
      if is_name_test name then
        let hits := filter (λ n, name_matches name n) (descendants doc) in
        match step with
        | None => Ok (XList (XElem <$> hits))
        | Some "text()" => Ok (XList (XStr <$> flat_map text_children hits))
        | Some (String "@" a) =>
            Ok (XList (XStr <$> omap (λ n, attr_of n a) hits))
        | Some _ => Raise (XPathEvalError "Invalid expression")
        end
      else Raise (XPathEvalError "Invalid expression")
  | _ => Raise (XPathEvalError "Invalid expression")
  end.

Definition lxml : LXML := {|
  Lib.Element := node;
  Lib.fromstring := parse;
  Lib.xpath := xpath;
  Lib.itertext := strings;
  Lib.elem_get := attr_of;
  Lib.elem_tag := tag_of;
  Lib.tostring := to_markup;
|}.

(** ** The rest of the environment *)

(** [list(s)] in the order of [elements]. *)
Definition order : SetOrder := {|
  list_of_set := elements;
  list_of_set_perm := λ s, reflexivity (elements s);
|}.

(** A join that covers absolute-path and plain relative references against
    a base whose path ends in a slash. *)
Definition urljoin (base ref : string) : string :=
  match ref with
  | String "/" _ =>
      let '(scheme, rest) := split_at "/"%char base in
      match rest with
      | Some (String "/" authority_path) =>
          scheme +:+ "//" +:+ (split_at "/"%char authority_path).1 +:+ ref
      | _ => ref
      end
  | _ => base +:+ ref
  end.

(** A network that serves the given pages and no other. *)
Definition net (pages : list (string * response)) (selenium : bool) : Net := {|
  requests_get := λ url _,
    match find (λ p, bool_decide (p.1 = url)) pages with
    | Some p => Ok p.2
    | None => Raise (Exception "ConnectionError" "Failed to establish a new connection")
    end;
  SELENIUM_AVAILABLE := selenium;
  chrome_session := λ url _ _,
    match find (λ p, bool_decide (p.1 = url)) pages with
    | Some p => Ok (response_text p.2)
    | None => Raise (Exception "WebDriverException" "net::ERR_NAME_NOT_RESOLVED")
    end;
|}.

End Dom.


(** * Pages and elements the examples run on *)

Module Examples.

Definition base : string := "https://x.com/c/".

(** An anchor without attributes, one with an empty [href], and one with a
    relative [href]. *)
Definition a_plain : Dom.node := Dom.Elem "a" [] [Dom.Text "none"].
Definition a_empty : Dom.node := Dom.Elem "a" [("href", "")] [Dom.Text "e"].
Definition a_link : Dom.node := Dom.Elem "a" [("href", "/a/b")] [Dom.Text "link"].

(** An anchor with an attribute named [text]. *)
Definition a_text : Dom.node := Dom.Elem "a" [("text", "attr")] [Dom.Text "body"].

Definition links_page : string :=
  "<div><a href='/a/b'>link</a><a href=''>e</a><a>none</a></div>".

(** A paragraph with white space inside: text, then a nested element. *)
Definition spaced_page : string := "<p> a <b> b </b></p>".
Definition spaced_p : Dom.node :=
  Dom.Elem "p" [] [Dom.Text " a "; Dom.Elem "b" [] [Dom.Text " b "]].

(** An element whose markup is 2007 characters long. *)
Definition long_p : Dom.node :=
  Dom.Elem "p" [] [Dom.Text (join EmptyString (replicate 2000 "x"))].

Definition no_files : world := World ∅ [] [].

End Examples.

(** Runs of [main]. *)

Module RunExamples.

(** A network that serves one page, without selenium. *)
Definition net : Net :=
  Dom.net [(Examples.base, Response 200 Examples.links_page)] false.

(** A run against a host that does not answer, and a run whose selector is
    an unclosed attribute selector. *)
Definition unreachable : Args := {|
  args_url := "https://nowhere.invalid/";
  args_selector := Some "a";
  args_xpath := None;
  args_attr := Some "href";
  args_text := false;
  args_headless := false;
  args_output := "results.csv";
  args_timeout := 20;
|}.

Definition bad_selector : Args := {|
  args_url := Examples.base;
  args_selector := Some "a[";
  args_xpath := None;
  args_attr := Some "href";
  args_text := false;
  args_headless := false;
  args_output := "results.csv";
  args_timeout := 20;
|}.

(** A run with [--selector] given as the empty string. *)
Definition empty_selector : Args := {|
  args_url := Examples.base;
  args_selector := Some EmptyString;
  args_xpath := None;
  args_attr := None;
  args_text := true;
  args_headless := false;
  args_output := "results.csv";
  args_timeout := 20;
|}.

End RunExamples.

(** * What [save_output] writes, in closed form *)

Section OutputForms.

Context (order : SetOrder).

(** The field names of the table, in the order [list(keys)] gives them. *)
Definition table_columns (items : list dict) : list string :=
  list_of_set order (unify_keys items).

(** The header row and the row of every item. *)
Definition table_rows (items : list dict) : list chunk :=
  CsvRow (PStr <$> table_columns items)
  :: ((λ it, CsvRow ((λ k, dict_get_default k (PStr EmptyString) it)
                       <$> table_columns items)) <$> items).

(** What the destination holds after [save_output], [None] when the
    function opens no file. *)
Definition written (items : list dict) (output_path : string)
    : option (list chunk) :=
  if endswith output_path ".json" then Some [Written (Json.dumps items)]
  else match items with
       | [] => None
       | _ :: _ => Some (table_rows items)
       end.

(** The line [save_output] prints. *)
Definition report (items : list dict) (output_path : string) : string :=
  if endswith output_path ".json" then wrote_message (length items) output_path
  else match items with
       | [] => "No items to write."
       | _ :: _ => wrote_message (length items) output_path
       end.

End OutputForms.

(** * An lxml whose queries can return scalars

    [Dom.lxml], with [count(...)], [boolean(...)] and [string(...)] around
    a query it knows: the first two return a number and a boolean, the last
    the text below the first node of the result. *)

Module Scalar.

Fixpoint strip_prefix (p s : string) : option string :=
  match p, s with
  | EmptyString, _ => Some s
  | String _ _, EmptyString => None
  | String a p', String b s' =>
      if bool_decide (a = b) then strip_prefix p' s' else None
  end.

(** The [arg] of a query of the form [name(arg)]. *)
Definition call_argument (name q : string) : option string :=
  rest ← strip_prefix (name +:+ "(") q;
  String.rev <$> strip_prefix ")" (String.rev rest).

Definition string_value (items : list (xpath_item Dom.node)) : string :=
  match items with
  | [] => EmptyString
  | XStr s :: _ => s
  | XElem n :: _ => join EmptyString (Dom.strings n)
  end.

Definition on_node_set {A} (doc : Dom.node) (q : string)
    (f : list (xpath_item Dom.node) → xpath_value A)
    : result (xpath_value A) :=
  match Dom.xpath doc q with
  | Ok (XList items) => Ok (f items)
  | Ok _ => Raise (Dom.XPathEvalError "Invalid expression")
  | Raise e => Raise e
  end.

Definition xpath (doc : Dom.node) (q : string) : result (xpath_value Dom.node) :=
  match call_argument "count" q with
  | Some inner => on_node_set doc inner (λ _, XNumber)
  | None =>
      match call_argument "boolean" q with
      | Some inner => on_node_set doc inner (λ _, XBool)
      | None =>
          match call_argument "string" q with
          | Some inner => on_node_set doc inner (λ items, XString (string_value items))
          | None => Dom.xpath doc q
          end
      end
  end.

Definition lxml : LXML := {|
  Lib.Element := Dom.node;
  Lib.fromstring := Dom.parse;
  Lib.xpath := xpath;
  Lib.itertext := Dom.strings;
  Lib.elem_get := Dom.attr_of;
  Lib.elem_tag := Dom.tag_of;
  Lib.tostring := Dom.to_markup;
|}.

End Scalar.

(** More runs of [main]. *)

Module Runs.

(** The anchors of the page, with their [href], to a table and to JSON. *)
Definition links_csv : Args := {|
  args_url := Examples.base;
  args_selector := Some "a";
  args_xpath := None;
  args_attr := Some "href";
  args_text := true;
  args_headless := false;
  args_output := "results.csv";
  args_timeout := 20;
|}.

Definition links_json : Args := {|
  args_url := Examples.base;
  args_selector := None;
  args_xpath := Some "//a";
  args_attr := Some "href";
  args_text := false;
  args_headless := false;
  args_output := "links.json";
  args_timeout := 20;
|}.

(** A selector that matches nothing on the page. *)
Definition no_match : Args := {|
  args_url := Examples.base;
  args_selector := Some "h1";
  args_xpath := None;
  args_attr := None;
  args_text := true;
  args_headless := false;
  args_output := "results.csv";
  args_timeout := 20;
|}.

(** The same page through the browser. *)
Definition headless : Args := {|
  args_url := Examples.base;
  args_selector := Some "a";
  args_xpath := None;
  args_attr := None;
  args_text := true;
  args_headless := true;
  args_output := "results.csv";
  args_timeout := 20;
|}.

(** A server that answers 404 with a body. *)
Definition net_404 : Net :=
  Dom.net [(Examples.base, Response 404 "<p>not found</p>")] false.

(** A world in which the destination already exists. *)
Definition old_files : world :=
  World {["results.csv" := [Written "old"]; "links.json" := [Written "old"];
          "notes.txt" := [Written "keep"]]} ["started"] [].

End Runs.


(** * Facts about dicts, strings and loops *)

Section DictFacts.

Implicit Types (d : dict) (k : string) (v : pyval).

Lemma dict_get_set_eq k v d : dict_get k (dict_set k v d) = Some v.
Proof.
  induction d as [|[k' v'] d IH]; simpl.
  - by rewrite decide_True.
  - destruct (decide (k' = k)) as [->|Hne]; simpl.
    + by rewrite decide_True.
    + by rewrite decide_False.
Qed.

Lemma dict_get_set_ne k k' v d :
  k ≠ k' → dict_get k' (dict_set k v d) = dict_get k' d.
Proof.
  intros Hne. induction d as [|[k0 v0] d IH]; simpl.
  - by rewrite decide_False.
  - destruct (decide (k0 = k)) as [->|Hk0]; simpl.
    + by rewrite !decide_False.
    + by rewrite IH.
Qed.

Lemma dict_get_Some_keys k v d : dict_get k d = Some v → k ∈ dict_keys d.
Proof.
  induction d as [|[k' v'] d IH]; simpl; [done|].
  destruct (decide (k' = k)) as [->|Hne]; intros H.
  - apply list_elem_of_here.
  - apply list_elem_of_further, IH, H.
Qed.

Lemma dict_keys_set k v d k' :
  k' ∈ dict_keys (dict_set k v d) ↔ k' = k ∨ k' ∈ dict_keys d.
Proof.
  induction d as [|[k0 v0] d IH]; simpl.
  - rewrite list_elem_of_singleton. set_solver.
  - destruct (decide (k0 = k)) as [->|Hne]; simpl.
    + rewrite !elem_of_cons. naive_solver.
    + unfold dict_keys in IH. rewrite !elem_of_cons, IH. naive_solver.
Qed.

(** A dict comprehension holds [f k] at every key it ranges over, and at
    no other. *)
Lemma dict_comprehension_snoc f ks k :
  dict_comprehension f (ks ++ [k])
  = dict_set k (f k) (dict_comprehension f ks).
Proof. unfold dict_comprehension. by rewrite foldl_app. Qed.

Lemma dict_get_comprehension f ks k :
  dict_get k (dict_comprehension f ks) = if decide (k ∈ ks) then Some (f k) else None.
Proof.
  induction ks as [|k0 ks IH] using rev_ind.
  - by rewrite decide_False by apply not_elem_of_nil.
  - rewrite dict_comprehension_snoc.
    destruct (decide (k0 = k)) as [->|Hne].
    + rewrite dict_get_set_eq, decide_True; [done | set_solver].
    + rewrite dict_get_set_ne, IH by done.
      destruct (decide (k ∈ ks)) as [Hin|Hnin].
      * rewrite decide_True; [done | set_solver].
      * rewrite decide_False; [done | set_solver].
Qed.

Lemma dict_keys_comprehension f ks k :
  k ∈ dict_keys (dict_comprehension f ks) ↔ k ∈ ks.
Proof.
  induction ks as [|k0 ks IH] using rev_ind.
  - done.
  - rewrite dict_comprehension_snoc, dict_keys_set, IH. set_solver.
Qed.

End DictFacts.

Section StringFacts.

Lemma slice_to_0 s : slice_to 0 s = EmptyString.
Proof. reflexivity. Qed.

Lemma slice_to_empty n : slice_to n EmptyString = EmptyString.
Proof. by destruct n. Qed.

Lemma slice_to_cons n c s : slice_to (S n) (String c s) = String c (slice_to n s).
Proof. reflexivity. Qed.

Lemma slice_to_length n s : String.length (slice_to n s) ≤ n.
Proof.
  revert s. induction n as [|n IH]; intros s.
  - by rewrite slice_to_0.
  - destruct s as [|c s].
    + rewrite slice_to_empty. simpl. lia.
    + rewrite slice_to_cons. simpl. specialize (IH s). lia.
Qed.

End StringFacts.

Section LoopFacts.

Context {A B : Type} (f : A → result B).

Lemma for_each_nil_inv xs : for_each f xs = Ok [] → xs = [].
Proof.
  destruct xs as [|x xs]; [done|]. simpl.
  destruct (f x); simpl; [|done]. by destruct (for_each f xs).
Qed.

(** A loop whose body always returns builds one result per item, in
    order. *)
Lemma for_each_total (g : A → B) xs :
  (∀ x, x ∈ xs → f x = Ok (g x)) → for_each f xs = Ok (g <$> xs).
Proof.
  induction xs as [|x xs IH]; intros Hf; simpl; [done|].
  rewrite Hf by apply list_elem_of_here. simpl.
  rewrite IH; [done|]. intros y Hy. apply Hf. by apply list_elem_of_further.
Qed.

End LoopFacts.


(** * The record builder *)

Section BuilderFacts.

Context (urljoin : string → string → string).

(** A false value (an absent attribute, an empty string) is never
    resolved. *)
Lemma resolve_falsy a base_url v :
  truthy v = false → resolve urljoin a base_url v = Ok v.
Proof. intros H. unfold resolve. by rewrite H. Qed.

Lemma resolve_other_attr a base_url v :
  is_url_attr a = false → resolve urljoin a base_url v = Ok v.
Proof. intros H. unfold resolve. rewrite H. by destruct (_ && _). Qed.

(** What is stored for a string value: the joined URL when the value and
    the base are non-empty and the attribute is [href] or [src], the value
    itself otherwise. *)
Lemma resolve_str a base_url s :
  resolve urljoin a base_url (PStr s)
  = Ok (PStr (if str_truthy s && str_truthy base_url && is_url_attr a
              then urljoin base_url s else s)).
Proof.
  unfold resolve. simpl.
  destruct (str_truthy s) eqn:Hs, (str_truthy base_url), (is_url_attr a);
    simpl; by rewrite ?Hs.
Qed.

Lemma set_attr_off attr base_url get item :
  opt_truthy attr = false → set_attr urljoin attr base_url get item = Ok item.
Proof. destruct attr as [a|]; simpl; [|done]. by intros ->. Qed.

Lemma set_attr_on a base_url get item :
  str_truthy a = true →
  set_attr urljoin (Some a) base_url get item
  = (val ← resolve urljoin a base_url (get a); Ok (dict_set a val item)).
Proof. simpl. by intros ->. Qed.

(** The last two assignments of the loop body, [item["tag"]] and
    [item["html"]]. *)
Lemma tag_html_get_html t h item :
  dict_get "html" (dict_set "html" h (dict_set "tag" t item)) = Some h.
Proof. apply dict_get_set_eq. Qed.

Lemma tag_html_get_other k t h item :
  k ≠ "tag" → k ≠ "html" →
  dict_get k (dict_set "html" h (dict_set "tag" t item)) = dict_get k item.
Proof. intros. by rewrite !dict_get_set_ne. Qed.

Lemma tag_html_keys k t h item :
  k ∈ dict_keys (dict_set "html" h (dict_set "tag" t item))
  ↔ k = "html" ∨ k = "tag" ∨ k ∈ dict_keys item.
Proof. by rewrite !dict_keys_set. Qed.

(** Under the Path Strategy the loop body always returns. *)
Lemma xpath_item_record_elem lx base_url attr text n :
  xpath_item_record lx urljoin base_url attr text (XElem n)
  = Ok (xpath_element_record lx urljoin base_url attr text n).
Proof.
  unfold xpath_item_record, xpath_element_record, set_attr.
  destruct attr as [a|]; [|by destruct text].
  destruct (str_truthy a); [|by destruct text].
  unfold elem_get_val. destruct (elem_get lx n a) as [s|]; simpl from_option.
  - rewrite resolve_str. by destruct text.
  - rewrite resolve_falsy by done. by destruct text.
Qed.

Lemma xpath_item_record_total lx base_url attr text n :
  xpath_item_record lx urljoin base_url attr text n
  = Ok (xpath_record lx urljoin base_url attr text n).
Proof. destruct n; [done | apply xpath_item_record_elem]. Qed.

(** The Path Strategy returns one record per item of the query result. *)
Lemma parse_with_xpath_total lx html q base_url attr text doc nodes items :
  fromstring lx html = Ok doc →
  xpath lx doc q = Ok nodes →
  iter_nodes lx nodes = Ok items →
  parse_with_xpath lx urljoin html (Some q) base_url attr text
  = Ok (xpath_record lx urljoin base_url attr text <$> items).
Proof.
  intros Hdoc Hq Hit. unfold parse_with_xpath.
  rewrite Hdoc. simpl. rewrite Hq. simpl. rewrite Hit. simpl.
  apply for_each_total. intros n _. apply xpath_item_record_total.
Qed.

End BuilderFacts.


(** * An attribute the element does not have *)

(** C1, as amended: when attribute [A] is requested and the element has no
    attribute [A], the record still has the key [A]; its value is [None]
    ([null] in JSON), unless [A] is [tag] or [html], the keys assigned
    after it.  This is so under the Selector Strategy and under the Path
    Strategy. *)
Theorem absent_attribute_stored_as_None
    (bs : BS4) (lx : LXML) (urljoin : string → string → string)
    (base_url A : string) (text : bool) (el : Tag bs) (n : Element lx) :
  str_truthy A = true →
  tag_get bs el A = PNone →
  elem_get lx n A = None →
  (∃ item, selector_item bs urljoin base_url (Some A) text el = Ok item
     ∧ A ∈ dict_keys item
     ∧ (A ≠ "tag" → A ≠ "html" → dict_get A item = Some PNone))
  ∧ (∃ item, xpath_item_record lx urljoin base_url (Some A) text (XElem n) = Ok item
     ∧ A ∈ dict_keys item
     ∧ (A ≠ "tag" → A ≠ "html" → dict_get A item = Some PNone)).
Proof.
  intros HA Hel Hn. split.
  - unfold selector_item. rewrite set_attr_on, Hel, resolve_falsy by done.
    eexists; split; [reflexivity|]. split.
    + apply tag_html_keys. right; right.
      eapply dict_get_Some_keys, dict_get_set_eq.
    + intros. rewrite tag_html_get_other by done. apply dict_get_set_eq.
  - rewrite xpath_item_record_elem. unfold xpath_element_record.
    rewrite HA, Hn. eexists; split; [reflexivity|]. split.
    + apply tag_html_keys. right; right.
      eapply dict_get_Some_keys, dict_get_set_eq.
    + intros. rewrite tag_html_get_other by done. apply dict_get_set_eq.
Qed.

Lemma absent_attribute_stored_as_None_witness :
  str_truthy "href" = true
  ∧ tag_get Dom.bs4 Examples.a_plain "href" = PNone
  ∧ elem_get Dom.lxml Examples.a_plain "href" = None
  ∧ (∃ item, selector_item Dom.bs4 Dom.urljoin Examples.base (Some "href") true
               Examples.a_plain = Ok item
       ∧ "href" ∈ dict_keys item
       ∧ ("href" ≠ "tag" → "href" ≠ "html" → dict_get "href" item = Some PNone))
  ∧ (∃ item, xpath_item_record Dom.lxml Dom.urljoin Examples.base (Some "href") true
               (XElem Examples.a_plain) = Ok item
       ∧ "href" ∈ dict_keys item
       ∧ ("href" ≠ "tag" → "href" ≠ "html" → dict_get "href" item = Some PNone)).
Proof.
  split; [reflexivity|]. split; [reflexivity|]. split; [reflexivity|].
  apply (absent_attribute_stored_as_None Dom.bs4 Dom.lxml Dom.urljoin
           Examples.base "href" true Examples.a_plain Examples.a_plain);
    reflexivity.
Defined.

(** C1 as the spec states it fails: on the page [<a>none</a>], with [href]
    requested, both strategies give a record that has the key [href],
    holding [None]. *)
Lemma absent_attribute_key_is_present :
  Dom.attr_of Examples.a_plain "href" = None
  ∧ parse_with_selector Dom.bs4 Dom.urljoin "<a>none</a>" "a" Examples.base
      (Some "href") false
    = Ok [[("href", PNone); ("tag", PStr "a"); ("html", PStr "<a>none</a>")]]
  ∧ parse_with_xpath Dom.lxml Dom.urljoin "<a>none</a>" (Some "//a") Examples.base
      (Some "href") false
    = Ok [[("href", PNone); ("tag", PStr "a"); ("html", PStr "<a>none</a>")]]
  ∧ dict_get "href"
      [("href", PNone); ("tag", PStr "a"); ("html", PStr "<a>none</a>")]
    = Some PNone.
Proof. repeat split; vm_compute; reflexivity. Qed.


(** * String results of the Path Strategy *)

(** C4: every item of an XPath result that is a string, not an element,
    gives the record with the single field [text], equal to that string,
    whatever the attribute and text options are; the call returns, with one
    record per item. *)
Theorem string_result_has_only_text
    (lx : LXML) (urljoin : string → string → string)
    (html q base_url : string) (attr : option string) (text : bool)
    (doc : Element lx) (nodes : xpath_value (Element lx))
    (items : list (xpath_item (Element lx))) :
  fromstring lx html = Ok doc →
  xpath lx doc q = Ok nodes →
  iter_nodes lx nodes = Ok items →
  ∃ records,
    parse_with_xpath lx urljoin html (Some q) base_url attr text = Ok records
    ∧ length records = length items
    ∧ ∀ i s, items !! i = Some (XStr s) →
        (records !! i = Some [("text", PStr s)]
         ∧ dict_keys [("text", PStr s)] = ["text"]).
Proof.
  intros Hdoc Hq Hit. eexists. split.
  - eapply parse_with_xpath_total; eauto.
  - split; [by rewrite length_fmap|].
    intros i s Hi. split; [|done].
    by rewrite list_lookup_fmap, Hi.
Qed.

Lemma string_result_has_only_text_witness :
  fromstring Dom.lxml Examples.links_page
  = Ok (Dom.Elem "[document]" []
          [Dom.Elem "div" [] [Examples.a_link; Examples.a_empty; Examples.a_plain]])
  ∧ xpath Dom.lxml
      (Dom.Elem "[document]" []
         [Dom.Elem "div" [] [Examples.a_link; Examples.a_empty; Examples.a_plain]])
      "//a/text()"
    = Ok (XList [XStr "link"; XStr "e"; XStr "none"])
  ∧ iter_nodes Dom.lxml (XList [XStr "link"; XStr "e"; XStr "none"])
    = Ok [XStr "link"; XStr "e"; XStr "none"]
  ∧ ∃ records,
      parse_with_xpath Dom.lxml Dom.urljoin Examples.links_page (Some "//a/text()")
        Examples.base (Some "href") true = Ok records
      ∧ length records = 3
      ∧ ∀ i s, [XStr "link"; XStr "e"; XStr "none"] !! i = Some (@XStr Dom.node s) →
          (records !! i = Some [("text", PStr s)]
           ∧ dict_keys [("text", PStr s)] = ["text"]).
Proof.
  split; [reflexivity|]. split; [reflexivity|]. split; [reflexivity|].
  apply (string_result_has_only_text Dom.lxml Dom.urljoin Examples.links_page
           "//a/text()" Examples.base (Some "href") true
           (Dom.Elem "[document]" []
              [Dom.Elem "div" [] [Examples.a_link; Examples.a_empty; Examples.a_plain]])
           (XList [XStr "link"; XStr "e"; XStr "none"])
           [XStr "link"; XStr "e"; XStr "none"]);
    reflexivity.
Defined.

(** * The length of the [html] field *)

(** C7: the [html] field of the record of an element is the first 1000
    characters of the element's markup, so it is never longer than 1000.
    Under the Selector Strategy this holds for every record the loop body
    returns; under the Path Strategy the loop body always returns one. *)
Theorem html_field_at_most_1000
    (bs : BS4) (lx : LXML) (urljoin : string → string → string)
    (base_url : string) (attr : option string) (text : bool) :
  (∀ el item,
     selector_item bs urljoin base_url attr text el = Ok item →
     ∃ h, dict_get "html" item = Some (PStr h)
          ∧ h = slice_to 1000 (tag_str bs el)
          ∧ String.length h ≤ 1000)
  ∧ (∀ n, ∃ item h,
       xpath_item_record lx urljoin base_url attr text (XElem n) = Ok item
       ∧ dict_get "html" item = Some (PStr h)
       ∧ h = slice_to 1000 (tostring lx n)
       ∧ String.length h ≤ 1000).
Proof.
  split.
  - intros el item Hitem. unfold selector_item in Hitem.
    destruct (set_attr _ _ _ _ _) as [item'|]; simpl in Hitem; [|done].
    injection Hitem as <-. eexists. split; [apply tag_html_get_html|].
    split; [done | apply slice_to_length].
  - intros n. rewrite xpath_item_record_elem. do 2 eexists.
    split; [reflexivity|]. split; [apply tag_html_get_html|].
    split; [done | apply slice_to_length].
Qed.

Lemma html_field_at_most_1000_witness :
  String.length (tag_str Dom.bs4 Examples.long_p) = 2007
  ∧ (∃ item h,
       selector_item Dom.bs4 Dom.urljoin Examples.base (Some "html") true
         Examples.long_p = Ok item
       ∧ dict_get "html" item = Some (PStr h)
       ∧ String.length h ≤ 1000)
  ∧ (∃ item h,
       xpath_item_record Dom.lxml Dom.urljoin Examples.base (Some "html") true
         (XElem Examples.long_p) = Ok item
       ∧ dict_get "html" item = Some (PStr h)
       ∧ h = slice_to 1000 (tostring Dom.lxml Examples.long_p)
       ∧ String.length h ≤ 1000).
Proof.
  split; [vm_compute; reflexivity|].
  destruct (html_field_at_most_1000 Dom.bs4 Dom.lxml Dom.urljoin
              Examples.base (Some "html") true) as [Hsel Hpath].
  split; [|apply Hpath].
  destruct (Hsel Examples.long_p _ eq_refl) as (h & Hh & _ & Hlen).
  eexists _, h. split; [reflexivity|]. split; [exact Hh | exact Hlen].
Defined.


(** * An [href] or [src] attribute with an empty value *)

(** C9: a value that is false (an absent attribute, the empty string) is
    stored as it is, never joined to the base URL; so when [href] or [src]
    is requested and the element has it with the empty string as value, the
    record holds the empty string under that key, whatever the base URL
    and whatever [urljoin] would return.  Both strategies. *)
Theorem empty_url_attribute_kept_verbatim
    (bs : BS4) (lx : LXML) (urljoin : string → string → string)
    (base_url A : string) (text : bool) (el : Tag bs) (n : Element lx) :
  is_url_attr A = true →
  tag_get bs el A = PStr EmptyString →
  elem_get lx n A = Some EmptyString →
  (∀ v, truthy v = false → resolve urljoin A base_url v = Ok v)
  ∧ (∃ item, selector_item bs urljoin base_url (Some A) text el = Ok item
       ∧ dict_get A item = Some (PStr EmptyString))
  ∧ (∃ item, xpath_item_record lx urljoin base_url (Some A) text (XElem n) = Ok item
       ∧ dict_get A item = Some (PStr EmptyString)).
Proof.
  intros HA Hel Hn.
  assert (str_truthy A = true ∧ A ≠ "tag" ∧ A ≠ "html") as (Htrue & Htag & Hhtml).
  { unfold is_url_attr in HA. apply orb_true_iff in HA.
    destruct HA as [->%bool_decide_eq_true | ->%bool_decide_eq_true]; done. }
  split; [intros v Hv; by apply resolve_falsy|]. split.
  - unfold selector_item. rewrite set_attr_on, Hel, resolve_falsy by done.
    eexists; split; [reflexivity|].
    rewrite tag_html_get_other by done. apply dict_get_set_eq.
  - rewrite xpath_item_record_elem. unfold xpath_element_record.
    rewrite Htrue, Hn. eexists; split; [reflexivity|].
    rewrite tag_html_get_other by done. apply dict_get_set_eq.
Qed.

Lemma empty_url_attribute_kept_verbatim_witness :
  is_url_attr "href" = true
  ∧ tag_get Dom.bs4 Examples.a_empty "href" = PStr EmptyString
  ∧ elem_get Dom.lxml Examples.a_empty "href" = Some EmptyString
  ∧ Dom.urljoin Examples.base EmptyString = Examples.base
  ∧ (∀ v, truthy v = false → resolve Dom.urljoin "href" Examples.base v = Ok v)
  ∧ (∃ item, selector_item Dom.bs4 Dom.urljoin Examples.base (Some "href") false
               Examples.a_empty = Ok item
       ∧ dict_get "href" item = Some (PStr EmptyString))
  ∧ (∃ item, xpath_item_record Dom.lxml Dom.urljoin Examples.base (Some "href") false
               (XElem Examples.a_empty) = Ok item
       ∧ dict_get "href" item = Some (PStr EmptyString)).
Proof.
  do 4 (split; [reflexivity|]).
  apply (empty_url_attribute_kept_verbatim Dom.bs4 Dom.lxml Dom.urljoin
           Examples.base "href" false Examples.a_empty Examples.a_empty);
    reflexivity.
Defined.

(** * Records without text and attribute *)

(** C10: with text extraction off and no attribute requested ([None] or
    the empty name), the Selector Strategy returns one record per matched
    element, and each has exactly the keys [tag] and [html], in this
    order. *)
Theorem selector_record_tag_html_only
    (bs : BS4) (urljoin : string → string → string)
    (html selector base_url : string) (attr : option string)
    (soup : Soup bs) (elems : list (Tag bs)) :
  opt_truthy attr = false →
  BeautifulSoup bs html = Ok soup →
  select bs soup selector = Ok elems →
  ∃ records,
    parse_with_selector bs urljoin html selector base_url attr false = Ok records
    ∧ length records = length elems
    ∧ (∀ i el, elems !! i = Some el →
         records !! i = Some [("tag", PStr (tag_name bs el));
                              ("html", PStr (slice_to 1000 (tag_str bs el)))])
    ∧ (∀ r, r ∈ records → dict_keys r = ["tag"; "html"]).
Proof.
  intros Hattr Hsoup Hsel.
  set (f := λ el : Tag bs, [("tag", PStr (tag_name bs el));
                            ("html", PStr (slice_to 1000 (tag_str bs el)))]).
  assert (parse_with_selector bs urljoin html selector base_url attr false
          = Ok (f <$> elems)) as Hrun.
  { unfold parse_with_selector. rewrite Hsoup. simpl. rewrite Hsel. simpl.
    apply for_each_total. intros el _. unfold selector_item.
    by rewrite set_attr_off. }
  exists (f <$> elems). split; [done|]. split; [by rewrite length_fmap|].
  split.
  - intros i el Hi. by rewrite list_lookup_fmap, Hi.
  - intros r (el' & -> & _)%list_elem_of_fmap. done.
Qed.

Lemma selector_record_tag_html_only_witness :
  opt_truthy None = false
  ∧ BeautifulSoup Dom.bs4 Examples.links_page
    = Ok (Dom.Elem "[document]" []
            [Dom.Elem "div" [] [Examples.a_link; Examples.a_empty; Examples.a_plain]])
  ∧ select Dom.bs4
      (Dom.Elem "[document]" []
         [Dom.Elem "div" [] [Examples.a_link; Examples.a_empty; Examples.a_plain]])
      "a"
    = Ok [Examples.a_link; Examples.a_empty; Examples.a_plain]
  ∧ ∃ records,
      parse_with_selector Dom.bs4 Dom.urljoin Examples.links_page "a" Examples.base
        None false = Ok records
      ∧ length records = 3
      ∧ (∀ i el, [Examples.a_link; Examples.a_empty; Examples.a_plain] !! i = Some el →
           records !! i = Some [("tag", PStr (tag_name Dom.bs4 el));
                                ("html", PStr (slice_to 1000 (tag_str Dom.bs4 el)))])
      ∧ (∀ r, r ∈ records → dict_keys r = ["tag"; "html"]).
Proof.
  do 3 (split; [reflexivity|]).
  apply (selector_record_tag_html_only Dom.bs4 Dom.urljoin Examples.links_page "a"
           Examples.base None
           (Dom.Elem "[document]" []
              [Dom.Elem "div" [] [Examples.a_link; Examples.a_empty; Examples.a_plain]])
           [Examples.a_link; Examples.a_empty; Examples.a_plain]);
    reflexivity.
Defined.


(** * Selectors the engine does not accept *)

(** C2, as amended: [parse_with_selector] hands the selector to the engine
    as it is and catches nothing.  On markup that parses, it returns the
    empty record sequence exactly when the engine returns the empty match
    sequence.  When the engine raises for the selector, as the engine of
    BeautifulSoup does for an empty or malformed one, the same exception
    leaves [parse_with_selector]; and a run of [main] with that selector,
    whose fetch returned this markup, ends in the handler of the query
    stage: exit status 3, the failure line on the standard error stream,
    files and standard output as they were.  (A selector that is the empty
    string reaches that handler through the XPath branch, with the
    exception raised there.) *)
Theorem selector_passed_through
    (bs : BS4) (lx : LXML) (urljoin : string → string → string)
    (html selector base_url : string) (attr : option string) (text : bool)
    (soup : Soup bs) :
  BeautifulSoup bs html = Ok soup →
  (parse_with_selector bs urljoin html selector base_url attr text = Ok []
   ↔ select bs soup selector = Ok [])
  ∧ (∀ e, select bs soup selector = Raise e →
       parse_with_selector bs urljoin html selector base_url attr text = Raise e
       ∧ ∀ (net : Net) (order : SetOrder) (args : Args) (w : world),
           fetch_stage net args = Ok html →
           args_selector args = Some selector →
           args_xpath args = None →
           ∃ e',
             parse_stage bs lx urljoin args html = Raise e'
             ∧ (str_truthy selector = true → e' = e)
             ∧ main net bs lx order urljoin args w
               = (3%Z, World (files w) (stdout w)
                         (stderr w ++ ["Failed to parse page: " +:+ exn_msg e']))).
Proof.
  intros Hsoup.
  assert (∀ base attr' text' e,
            select bs soup selector = Raise e →
            parse_with_selector bs urljoin html selector base attr' text'
            = Raise e) as Hraise.
  { intros base attr' text' e Hsel. unfold parse_with_selector.
    rewrite Hsoup. simpl. by rewrite Hsel. }
  split.
  - unfold parse_with_selector. rewrite Hsoup. simpl.
    destruct (select bs soup selector) as [elems|e]; simpl; [|done]. split.
    + by intros ->%for_each_nil_inv.
    + by intros [= ->].
  - intros e Hsel. split; [by apply Hraise|].
    intros net order args w Hfetch Hargs Hxpath.
    assert (∃ e', parse_stage bs lx urljoin args html = Raise e'
                  ∧ (str_truthy selector = true → e' = e))
      as (e' & Hparse & He').
    { unfold parse_stage. rewrite Hargs. simpl.
      destruct (str_truthy selector).
      - exists e. split; [by apply Hraise | done].
      - rewrite Hxpath. unfold parse_with_xpath.
        destruct (fromstring lx html) as [doc|e0]; simpl;
          eexists; (split; [reflexivity | done]). }
    exists e'. split; [done|]. split; [done|].
    unfold main. by rewrite Hfetch, Hparse.
Qed.

Lemma selector_passed_through_witness :
  BeautifulSoup Dom.bs4 Examples.links_page
  = Ok (Dom.Elem "[document]" []
          [Dom.Elem "div" [] [Examples.a_link; Examples.a_empty; Examples.a_plain]])
  ∧ select Dom.bs4
      (Dom.Elem "[document]" []
         [Dom.Elem "div" [] [Examples.a_link; Examples.a_empty; Examples.a_plain]])
      "a["
    = Raise (Dom.SelectorSyntaxError "Invalid or missing selector")
  ∧ fetch_stage RunExamples.net RunExamples.bad_selector = Ok Examples.links_page
  ∧ args_selector RunExamples.bad_selector = Some "a["
  ∧ args_xpath RunExamples.bad_selector = None
  ∧ parse_with_selector Dom.bs4 Dom.urljoin Examples.links_page "a["
      Examples.base (Some "href") true
    = Raise (Dom.SelectorSyntaxError "Invalid or missing selector")
  ∧ main RunExamples.net Dom.bs4 Dom.lxml Dom.order Dom.urljoin
      RunExamples.bad_selector Runs.old_files
    = (3%Z, World (files Runs.old_files) (stdout Runs.old_files)
              (stderr Runs.old_files
                 ++ ["Failed to parse page: Invalid or missing selector"])).
Proof.
  do 5 (split; [reflexivity|]).
  destruct (selector_passed_through Dom.bs4 Dom.lxml Dom.urljoin
              Examples.links_page "a[" Examples.base (Some "href") true
              (Dom.Elem "[document]" []
                 [Dom.Elem "div" []
                    [Examples.a_link; Examples.a_empty; Examples.a_plain]])
              eq_refl) as [_ Hraises].
  destruct (Hraises (Dom.SelectorSyntaxError "Invalid or missing selector")
              eq_refl) as [Hcall Hmain].
  split; [exact Hcall|].
  destruct (Hmain RunExamples.net Dom.order RunExamples.bad_selector
              Runs.old_files eq_refl eq_refl eq_refl)
    as (e' & _ & He' & Hrun).
  rewrite (He' eq_refl) in Hrun. exact Hrun.
Defined.

(** C2 as the spec states it fails with an engine that rejects the empty
    selector and an unclosed attribute selector as syntax errors: the markup
    parses, and the call raises instead of returning the empty sequence. *)
Lemma malformed_selector_raises :
  BeautifulSoup Dom.bs4 "<p>x</p>"
  = Ok (Dom.Elem "[document]" [] [Dom.Elem "p" [] [Dom.Text "x"]])
  ∧ parse_with_selector Dom.bs4 Dom.urljoin "<p>x</p>" EmptyString Examples.base
      None false
    = Raise (Dom.SelectorSyntaxError "Invalid or missing selector")
  ∧ parse_with_selector Dom.bs4 Dom.urljoin "<p>x</p>" "a[" Examples.base
      None false
    = Raise (Dom.SelectorSyntaxError "Invalid or missing selector").
Proof. repeat split; vm_compute; reflexivity. Qed.

(** * The text of an element *)

(** X4: under the Path Strategy with text extraction on, every record the
    loop body returns for an element has as [text] field the concatenation
    of the text below the element, stripped at both ends (when the
    requested attribute is not itself named [text]). *)
Lemma path_text_is_trimmed_concatenation
    (lx : LXML) (urljoin : string → string → string)
    (base_url : string) (attr : option string) (n : Element lx) (item : dict) :
  attr ≠ Some "text" →
  xpath_item_record lx urljoin base_url attr true (XElem n) = Ok item →
  dict_get "text" item
  = Some (PStr (strip (join EmptyString (itertext lx n)))).
Proof.
  intros Hattr. unfold xpath_item_record, set_attr.
  destruct attr as [a|]; [destruct (str_truthy a)|].
  - destruct (resolve _ _ _ _) as [v|]; [|done]. intros [= <-].
    rewrite tag_html_get_other by done.
    destruct (decide ("text" = a)) as [<-|?]; [congruence | done].
  - by intros [= <-].
  - by intros [= <-].
Qed.

Lemma path_text_is_trimmed_concatenation_witness :
  Some "href" ≠ Some "text"
  ∧ itertext Dom.lxml Examples.spaced_p = [" a "; " b "]
  ∧ xpath_item_record Dom.lxml Dom.urljoin Examples.base (Some "href") true
      (XElem Examples.spaced_p)
    = Ok [("text", PStr "a  b"); ("href", PNone); ("tag", PStr "p");
          ("html", PStr (Dom.to_markup Examples.spaced_p))]
  ∧ dict_get "text"
      [("text", PStr "a  b"); ("href", PNone); ("tag", PStr "p");
       ("html", PStr (Dom.to_markup Examples.spaced_p))]
    = Some (PStr (strip (join EmptyString (itertext Dom.lxml Examples.spaced_p)))).
Proof.
  split; [discriminate|]. do 2 (split; [reflexivity|]).
  apply (path_text_is_trimmed_concatenation Dom.lxml Dom.urljoin Examples.base
           (Some "href") Examples.spaced_p);
    [discriminate | reflexivity].
Defined.

(** Under the Selector Strategy it is what [get_text(strip=True)] returns. *)
Lemma selector_text_is_get_text
    (bs : BS4) (urljoin : string → string → string)
    (base_url : string) (attr : option string) (el : Tag bs) (item : dict) :
  attr ≠ Some "text" →
  selector_item bs urljoin base_url attr true el = Ok item →
  dict_get "text" item = Some (PStr (get_text_strip bs el)).
Proof.
  intros Hattr. unfold selector_item, set_attr.
  destruct attr as [a|]; [destruct (str_truthy a)|].
  - destruct (resolve _ _ _ _) as [v|]; [|done]. intros [= <-].
    rewrite tag_html_get_other by done.
    destruct (decide ("text" = a)) as [<-|?]; [congruence | done].
  - by intros [= <-].
  - by intros [= <-].
Qed.

(** C3 on the page [<p> a <b> b </b></p>]: the concatenation of the text
    below the paragraph, stripped at both ends, keeps the two blanks
    between the letters, and the Path Strategy stores that; the Selector
    Strategy, which strips every text node on its own before joining,
    stores the letters without the blanks. *)
Theorem selector_text_strips_each_fragment :
  BeautifulSoup Dom.bs4 Examples.spaced_page
  = Ok (Dom.Elem "[document]" [] [Examples.spaced_p])
  ∧ strip (join EmptyString (Dom.strings Examples.spaced_p)) = "a  b"
  ∧ parse_with_xpath Dom.lxml Dom.urljoin Examples.spaced_page (Some "//p")
      Examples.base None true
    = Ok [[("text", PStr "a  b"); ("tag", PStr "p");
           ("html", PStr "<p> a <b> b </b></p>")]]
  ∧ parse_with_selector Dom.bs4 Dom.urljoin Examples.spaced_page "p"
      Examples.base None true
    = Ok [[("text", PStr "ab"); ("tag", PStr "p");
           ("html", PStr "<p> a <b> b </b></p>")]].
Proof. repeat split; vm_compute; reflexivity. Qed.


(** * The output serializer *)

Section OutputFacts.

Context (order : SetOrder).

Lemma write_inserted path c cs fs so se :
  write path c (World (<[path := cs]> fs) so se)
  = (Ok (), World (<[path := cs ++ [c]]> fs) so se).
Proof. unfold write. simpl. by rewrite alter_insert_eq. Qed.

(** The key set collects the keys of every item. *)
Lemma elem_of_foldl_keys (acc : gset string) items k :
  k ∈ foldl (λ keys it, keys ∪ list_to_set (dict_keys it)) acc items
  ↔ k ∈ acc ∨ ∃ it, it ∈ items ∧ k ∈ dict_keys it.
Proof.
  revert acc. induction items as [|it items IH]; intros acc; simpl.
  - split; [auto | intros [?|(it & Hit & _)]; [done | by apply elem_of_nil in Hit]].
  - rewrite IH, elem_of_union, elem_of_list_to_set. split.
    + intros [[?|?]|(it' & ? & ?)]; [by left | right..].
      * exists it. split; [apply list_elem_of_here | done].
      * exists it'. split; [by apply list_elem_of_further | done].
    + intros [?|(it' & [->|?]%elem_of_cons & ?)]; [by left; left | by left; right|].
      right. by exists it'.
Qed.

Lemma elem_of_unify_keys items k :
  k ∈ unify_keys items ↔ ∃ it, it ∈ items ∧ k ∈ dict_keys it.
Proof.
  unfold unify_keys. rewrite elem_of_foldl_keys. set_solver.
Qed.

Lemma elem_of_list_of_set (s : gset string) k :
  k ∈ list_of_set order s ↔ k ∈ s.
Proof. by rewrite (list_of_set_perm order s), elem_of_elements. Qed.

Lemma NoDup_list_of_set (s : gset string) : NoDup (list_of_set order s).
Proof. rewrite (list_of_set_perm order s). apply NoDup_elements. Qed.

(** A dict built over the field names gives, as a row, its values in the
    order of the field names. *)
Lemma dict_to_list_comprehension f fieldnames :
  Csv.dict_to_list fieldnames (dict_comprehension f fieldnames)
  = Ok (f <$> fieldnames).
Proof.
  unfold Csv.dict_to_list.
  assert (forallb (λ k, bool_decide (k ∈ fieldnames))
            (dict_keys (dict_comprehension f fieldnames)) = true) as ->.
  { apply forallb_forall. intros k Hk%list_elem_of_In.
    apply bool_decide_eq_true. by apply dict_keys_comprehension in Hk. }
  f_equal. apply list_fmap_ext. intros i k Hk%list_elem_of_lookup_2.
  unfold dict_get_default. rewrite dict_get_comprehension.
  by rewrite decide_True.
Qed.

Lemma writerow_comprehension path f fieldnames cs fs so se :
  Csv.writerow path fieldnames (dict_comprehension f fieldnames)
    (World (<[path := cs]> fs) so se)
  = (Ok (), World (<[path := cs ++ [CsvRow (f <$> fieldnames)]]> fs) so se).
Proof.
  unfold Csv.writerow, mbind, io_bind, lift.
  rewrite dict_to_list_comprehension. apply write_inserted.
Qed.

Lemma write_rows path (g : dict → string → pyval) fieldnames items cs fs so se :
  io_for (λ it, Csv.writerow path fieldnames
                  (dict_comprehension (g it) fieldnames))
    items (World (<[path := cs]> fs) so se)
  = (Ok (), World (<[path := cs ++ ((λ it, CsvRow (g it <$> fieldnames)) <$> items)]> fs)
               so se).
Proof.
  revert cs. induction items as [|it items IH]; intros cs; simpl.
  - by rewrite app_nil_r.
  - unfold mbind, io_bind. rewrite writerow_comprehension, IH.
    by rewrite <- app_assoc.
Qed.

Lemma wrote_message_not_no_items n p : wrote_message n p ≠ "No items to write.".
Proof.
  intros H. apply (f_equal (String.get 0)) in H. vm_compute in H. discriminate.
Qed.

End OutputFacts.


(** * Writing an empty batch *)

(** C5: for the empty record sequence, a destination ending in [.json]
    gets a file holding the empty JSON array and the report for 0 items;
    any other destination leaves every file as it was and prints the report
    [No items to write.], which differs from every [Wrote N items]
    report. *)
Theorem empty_batch_output
    (order : SetOrder) (output_path : string) (w : world) :
  (endswith output_path ".json" = true →
     save_output order [] output_path w
     = (Ok (), World (<[output_path := [Written "[]"]]> (files w))
                     (stdout w ++ ["Wrote 0 items to " +:+ output_path])
                     (stderr w)))
  ∧ (endswith output_path ".json" = false →
     save_output order [] output_path w
     = (Ok (), World (files w) (stdout w ++ ["No items to write."]) (stderr w)))
  ∧ (∀ n p, wrote_message n p ≠ "No items to write.").
Proof.
  split; [|split].
  - intros Hjson. unfold save_output. rewrite Hjson.
    unfold mbind, io_bind, open_w, print.
    rewrite write_inserted. reflexivity.
  - intros Hcsv. unfold save_output. by rewrite Hcsv.
  - apply wrote_message_not_no_items.
Qed.

Lemma empty_batch_output_witness :
  endswith "out.json" ".json" = true
  ∧ endswith "results.csv" ".json" = false
  ∧ save_output Dom.order [] "out.json" Examples.no_files
    = (Ok (), World {["out.json" := [Written "[]"]]} ["Wrote 0 items to out.json"] [])
  ∧ save_output Dom.order [] "results.csv" Examples.no_files
    = (Ok (), World ∅ ["No items to write."] []).
Proof.
  destruct (empty_batch_output Dom.order "out.json" Examples.no_files)
    as (Hjson & _ & _).
  destruct (empty_batch_output Dom.order "results.csv" Examples.no_files)
    as (_ & Hcsv & _).
  split; [reflexivity|]. split; [reflexivity|]. split.
  - rewrite Hjson by reflexivity. reflexivity.
  - rewrite Hcsv by reflexivity. reflexivity.
Defined.

(** * The table *)

(** C6: for a non-empty record sequence and a destination that does not end
    in [.json], the file holds a header row and one row per record, in
    order.  The header lists, each once, exactly the field names that occur
    in some record; the row of a record holds, column by column in the
    order of the header, the record's value for the field if it has the
    field and the empty string otherwise. *)
Theorem table_has_union_header
    (order : SetOrder) (items : list dict) (output_path : string) (w : world) :
  items ≠ [] →
  endswith output_path ".json" = false →
  ∃ columns,
    NoDup columns
    ∧ (∀ k, k ∈ columns ↔ ∃ it, it ∈ items ∧ k ∈ dict_keys it)
    ∧ save_output order items output_path w
      = (Ok (),
         World
           (<[output_path :=
                CsvRow (PStr <$> columns)
                :: ((λ it, CsvRow ((λ k, match dict_get k it with
                                         | Some v => v
                                         | None => PStr EmptyString
                                         end) <$> columns)) <$> items)]>
              (files w))
           (stdout w ++ [wrote_message (length items) output_path])
           (stderr w)).
Proof.
  intros Hitems Hcsv.
  exists (list_of_set order (unify_keys items)). split; [|split].
  - apply NoDup_list_of_set.
  - intros k. by rewrite elem_of_list_of_set, elem_of_unify_keys.
  - unfold save_output. rewrite Hcsv.
    destruct items as [|it0 items']; [done|].
    set (items := it0 :: items'). set (columns := list_of_set _ _).
    unfold mbind at 1, io_bind at 1, open_w.
    unfold mbind at 1, io_bind at 1, Csv.writeheader.
    rewrite writerow_comprehension.
    unfold mbind at 1, io_bind at 1.
    rewrite (write_rows output_path (λ it k, dict_get_default k (PStr EmptyString) it)).
    unfold print. simpl. done.
Qed.

Lemma table_has_union_header_witness :
  [[("text", PStr "x")]; [("text", PStr "y"); ("href", PNone)]] ≠ []
  ∧ endswith "results.csv" ".json" = false
  ∧ ∃ columns,
      NoDup columns
      ∧ (∀ k, k ∈ columns
              ↔ ∃ it, it ∈ [[("text", PStr "x")]; [("text", PStr "y"); ("href", PNone)]]
                      ∧ k ∈ dict_keys it)
      ∧ save_output Dom.order
          [[("text", PStr "x")]; [("text", PStr "y"); ("href", PNone)]]
          "results.csv" Examples.no_files
        = (Ok (),
           World
             (<["results.csv" :=
                  CsvRow (PStr <$> columns)
                  :: ((λ it, CsvRow ((λ k, match dict_get k it with
                                           | Some v => v
                                           | None => PStr EmptyString
                                           end) <$> columns))
                        <$> [[("text", PStr "x")]; [("text", PStr "y"); ("href", PNone)]])]>
                (files Examples.no_files))
             (stdout Examples.no_files
                ++ [wrote_message 2 "results.csv"])
             (stderr Examples.no_files)).
Proof.
  split; [discriminate|]. split; [reflexivity|].
  apply (table_has_union_header Dom.order
           [[("text", PStr "x")]; [("text", PStr "y"); ("href", PNone)]]
           "results.csv" Examples.no_files);
    [discriminate | reflexivity].
Defined.


(** * Failures of the fetch and of the query *)

(** C8: a run whose fetch raises ends with exit status 2 and a run whose
    query or parse stage raises ends with exit status 3; the two differ and
    neither is 0.  In both runs the files and the standard output are left
    as they were: nothing is written and no report is printed, only the
    failure message on the standard error stream. *)
Theorem failure_exit_codes
    (net : Net) (bs : BS4) (lx : LXML) (order : SetOrder)
    (urljoin : string → string → string)
    (args1 args2 : Args) (w1 w2 : world)
    (e1 e2 : exception) (html : string) :
  fetch_stage net args1 = Raise e1 →
  fetch_stage net args2 = Ok html →
  parse_stage bs lx urljoin args2 html = Raise e2 →
  let run1 := main net bs lx order urljoin args1 w1 in
  let run2 := main net bs lx order urljoin args2 w2 in
  run1 = (2%Z, World (files w1) (stdout w1)
                 (stderr w1 ++ ["Failed to fetch page: " +:+ exn_msg e1]))
  ∧ run2 = (3%Z, World (files w2) (stdout w2)
                   (stderr w2 ++ ["Failed to parse page: " +:+ exn_msg e2]))
  ∧ run1.1 ≠ run2.1 ∧ run1.1 ≠ 0%Z ∧ run2.1 ≠ 0%Z
  ∧ files run1.2 = files w1 ∧ files run2.2 = files w2.
Proof.
  intros Hfetch1 Hfetch2 Hparse2 run1 run2.
  assert (run1 = (2%Z, World (files w1) (stdout w1)
                         (stderr w1 ++ ["Failed to fetch page: " +:+ exn_msg e1])))
    as H1.
  { unfold run1, main. by rewrite Hfetch1. }
  assert (run2 = (3%Z, World (files w2) (stdout w2)
                         (stderr w2 ++ ["Failed to parse page: " +:+ exn_msg e2])))
    as H2.
  { unfold run2, main. by rewrite Hfetch2, Hparse2. }
  rewrite H1, H2. simpl. repeat split; done.
Qed.

Lemma failure_exit_codes_witness :
  fetch_stage RunExamples.net RunExamples.unreachable
  = Raise (Exception "ConnectionError" "Failed to establish a new connection")
  ∧ fetch_stage RunExamples.net RunExamples.bad_selector = Ok Examples.links_page
  ∧ parse_stage Dom.bs4 Dom.lxml Dom.urljoin RunExamples.bad_selector
      Examples.links_page
    = Raise (Dom.SelectorSyntaxError "Invalid or missing selector")
  ∧ main RunExamples.net Dom.bs4 Dom.lxml Dom.order Dom.urljoin
      RunExamples.unreachable Examples.no_files
    = (2%Z, World ∅ []
              ["Failed to fetch page: Failed to establish a new connection"])
  ∧ main RunExamples.net Dom.bs4 Dom.lxml Dom.order Dom.urljoin
      RunExamples.bad_selector Examples.no_files
    = (3%Z, World ∅ [] ["Failed to parse page: Invalid or missing selector"]).
Proof.
  do 3 (split; [reflexivity|]).
  destruct (failure_exit_codes RunExamples.net Dom.bs4 Dom.lxml Dom.order
              Dom.urljoin RunExamples.unreachable RunExamples.bad_selector
              Examples.no_files Examples.no_files
              (Exception "ConnectionError" "Failed to establish a new connection")
              (Dom.SelectorSyntaxError "Invalid or missing selector")
              Examples.links_page eq_refl eq_refl eq_refl)
    as (Hrun1 & Hrun2 & _).
  split; [exact Hrun1 | exact Hrun2].
Defined.


(** * Further properties of the script *)

(** X1: when [--selector] is the empty string, [main] does not call the
    Selector Strategy: [if args.selector:] is false, the XPath branch runs
    with the query [None], the parse stage raises, and the process ends
    with exit status 3 and no output. *)
Theorem empty_selector_takes_xpath_branch
    (net : Net) (bs : BS4) (lx : LXML) (order : SetOrder)
    (urljoin : string → string → string) (args : Args) (w : world)
    (html : string) :
  args_selector args = Some EmptyString →
  args_xpath args = None →
  fetch_stage net args = Ok html →
  ∃ e,
    parse_stage bs lx urljoin args html = Raise e
    ∧ parse_with_xpath lx urljoin html None (args_url args) (args_attr args)
        (args_text args) = Raise e
    ∧ main net bs lx order urljoin args w
      = (3%Z, World (files w) (stdout w)
                (stderr w ++ ["Failed to parse page: " +:+ exn_msg e])).
Proof.
  intros Hsel Hxpath Hfetch.
  assert (∃ e, parse_with_xpath lx urljoin html None (args_url args)
                 (args_attr args) (args_text args) = Raise e) as [e He].
  { unfold parse_with_xpath. destruct (fromstring lx html) as [doc|e]; eauto. }
  exists e.
  assert (parse_stage bs lx urljoin args html = Raise e) as Hparse.
  { unfold parse_stage. by rewrite Hsel, Hxpath. }
  split; [done|]. split; [done|].
  unfold main. by rewrite Hfetch, Hparse.
Qed.

Lemma empty_selector_takes_xpath_branch_witness :
  args_selector RunExamples.empty_selector = Some EmptyString
  ∧ args_xpath RunExamples.empty_selector = None
  ∧ fetch_stage RunExamples.net RunExamples.empty_selector = Ok Examples.links_page
  ∧ ∃ e,
      parse_stage Dom.bs4 Dom.lxml Dom.urljoin RunExamples.empty_selector
        Examples.links_page = Raise e
      ∧ parse_with_xpath Dom.lxml Dom.urljoin Examples.links_page None
          Examples.base None true = Raise e
      ∧ main RunExamples.net Dom.bs4 Dom.lxml Dom.order Dom.urljoin
          RunExamples.empty_selector Examples.no_files
        = (3%Z, World ∅ [] ["Failed to parse page: " +:+ exn_msg e]).
Proof.
  do 3 (split; [reflexivity|]).
  apply (empty_selector_takes_xpath_branch RunExamples.net Dom.bs4 Dom.lxml
           Dom.order Dom.urljoin RunExamples.empty_selector Examples.no_files
           Examples.links_page);
    reflexivity.
Defined.

(** X2: the value stored for a requested attribute that the element has
    as a string.  When the value or the base URL is empty, or the attribute
    is neither [href] nor [src], [urljoin] is not called: the loop body
    returns a record that holds the value itself.  When the value and the
    base URL are non-empty and the attribute is [href] or [src], every
    record the loop body returns holds what [urljoin] gave for the base
    URL and the value.  Both strategies. *)
Theorem url_attribute_resolution
    (bs : BS4) (lx : LXML) (urljoin : string → string → string)
    (base_url A s : string) (text : bool) (el : Tag bs) (n : Element lx) :
  str_truthy A = true →
  A ≠ "tag" →
  A ≠ "html" →
  tag_get bs el A = PStr s →
  elem_get lx n A = Some s →
  let joined := str_truthy s && str_truthy base_url && is_url_attr A in
  (joined = false →
   (∃ item, selector_item bs urljoin base_url (Some A) text el = Ok item
      ∧ dict_get A item = Some (PStr s))
   ∧ (∃ item, xpath_item_record lx urljoin base_url (Some A) text (XElem n)
              = Ok item
      ∧ dict_get A item = Some (PStr s)))
  ∧ (joined = true →
     (∀ item, selector_item bs urljoin base_url (Some A) text el = Ok item →
              dict_get A item = Some (PStr (urljoin base_url s)))
     ∧ (∀ item, xpath_item_record lx urljoin base_url (Some A) text (XElem n)
                = Ok item →
                dict_get A item = Some (PStr (urljoin base_url s)))).
Proof.
  intros HA Htag Hhtml Hel Hn joined.
  assert (selector_item bs urljoin base_url (Some A) text el
          = Ok (dict_set "html" (PStr (slice_to 1000 (tag_str bs el)))
                  (dict_set "tag" (PStr (tag_name bs el))
                     (dict_set A (PStr (if joined then urljoin base_url s else s))
                        (if text
                         then dict_set "text" (PStr (get_text_strip bs el)) []
                         else [])))))
    as Hsel.
  { unfold selector_item. by rewrite set_attr_on, Hel, resolve_str by done. }
  assert (xpath_item_record lx urljoin base_url (Some A) text (XElem n)
          = Ok (dict_set "html" (PStr (slice_to 1000 (tostring lx n)))
                  (dict_set "tag" (PStr (elem_tag lx n))
                     (dict_set A (PStr (if joined then urljoin base_url s else s))
                        (if text
                         then dict_set "text"
                                (PStr (strip (join EmptyString (itertext lx n)))) []
                         else [])))))
    as Hpath.
  { unfold xpath_item_record. rewrite set_attr_on by done.
    unfold elem_get_val. rewrite Hn. simpl from_option.
    by rewrite resolve_str. }
  rewrite Hsel, Hpath. split; intros Hj; rewrite Hj; split.
  - eexists; split; [reflexivity|].
    rewrite tag_html_get_other by done. apply dict_get_set_eq.
  - eexists; split; [reflexivity|].
    rewrite tag_html_get_other by done. apply dict_get_set_eq.
  - intros item [= <-].
    rewrite tag_html_get_other by done. apply dict_get_set_eq.
  - intros item [= <-].
    rewrite tag_html_get_other by done. apply dict_get_set_eq.
Qed.

Lemma url_attribute_resolution_witness :
  str_truthy "href" = true
  ∧ "href" ≠ "tag"
  ∧ "href" ≠ "html"
  ∧ tag_get Dom.bs4 Examples.a_link "href" = PStr "/a/b"
  ∧ elem_get Dom.lxml Examples.a_link "href" = Some "/a/b"
  ∧ str_truthy "/a/b" && str_truthy Examples.base && is_url_attr "href" = true
  ∧ selector_item Dom.bs4 Dom.urljoin Examples.base (Some "href") false
      Examples.a_link
    = Ok [("href", PStr "https://x.com/a/b"); ("tag", PStr "a");
          ("html", PStr (Dom.to_markup Examples.a_link))]
  ∧ dict_get "href"
      [("href", PStr "https://x.com/a/b"); ("tag", PStr "a");
       ("html", PStr (Dom.to_markup Examples.a_link))]
    = Some (PStr (Dom.urljoin Examples.base "/a/b"))
  ∧ (str_truthy "/a/b" && str_truthy EmptyString && is_url_attr "href" = false →
     ∃ item, selector_item Dom.bs4 Dom.urljoin EmptyString (Some "href") false
               Examples.a_link = Ok item
             ∧ dict_get "href" item = Some (PStr "/a/b")).
Proof.
  split; [reflexivity|]. do 2 (split; [discriminate|]).
  do 4 (split; [reflexivity|]). split.
  - destruct (url_attribute_resolution Dom.bs4 Dom.lxml Dom.urljoin Examples.base
                "href" "/a/b" false Examples.a_link Examples.a_link)
      as [_ Hjoined];
      [reflexivity | discriminate | discriminate | reflexivity | reflexivity |].
    destruct (Hjoined eq_refl) as [Hsel _]. apply Hsel. reflexivity.
  - intros Hno.
    destruct (url_attribute_resolution Dom.bs4 Dom.lxml Dom.urljoin EmptyString
                "href" "/a/b" false Examples.a_link Examples.a_link)
      as [Hverbatim _];
      [reflexivity | discriminate | discriminate | reflexivity | reflexivity |].
    destruct (Hverbatim Hno) as [Hsel _]. exact Hsel.
Defined.

(** X3: when the requested attribute is itself named [text] and text
    extraction is on, the [text] field of the record holds what [get]
    returned for that attribute, not the text of the element: the second
    assignment to the key replaces the first.  Both strategies. *)
Theorem attribute_named_text_replaces_text
    (bs : BS4) (lx : LXML) (urljoin : string → string → string)
    (base_url : string) (el : Tag bs) (n : Element lx) :
  (∃ item, selector_item bs urljoin base_url (Some "text") true el = Ok item
     ∧ dict_get "text" item = Some (tag_get bs el "text"))
  ∧ (∃ item, xpath_item_record lx urljoin base_url (Some "text") true (XElem n)
             = Ok item
     ∧ dict_get "text" item = Some (elem_get_val lx n "text")).
Proof.
  split.
  - unfold selector_item. rewrite set_attr_on, resolve_other_attr by done.
    eexists; split; [reflexivity|].
    rewrite tag_html_get_other by done. apply dict_get_set_eq.
  - unfold xpath_item_record. rewrite set_attr_on, resolve_other_attr by done.
    eexists; split; [reflexivity|].
    rewrite tag_html_get_other by done. apply dict_get_set_eq.
Qed.

Lemma attribute_named_text_replaces_text_witness :
  get_text_strip Dom.bs4 Examples.a_text = "body"
  ∧ (∃ item, selector_item Dom.bs4 Dom.urljoin Examples.base (Some "text") true
               Examples.a_text = Ok item
       ∧ dict_get "text" item = Some (PStr "attr"))
  ∧ (∃ item, xpath_item_record Dom.lxml Dom.urljoin Examples.base (Some "text") true
               (XElem Examples.a_text) = Ok item
       ∧ dict_get "text" item = Some (PStr "attr")).
Proof.
  split; [reflexivity|].
  apply (attribute_named_text_replaces_text Dom.bs4 Dom.lxml Dom.urljoin
           Examples.base Examples.a_text Examples.a_text).
Defined.


(** * More about the output serializer *)

Section SaveOutputFacts.

Context (order : SetOrder).

(** With a destination that can be opened and records that hold [None],
    strings and lists of strings, as the model has them, [save_output]
    returns; it puts [written] at the destination and prints [report]. *)
Lemma save_output_closed items output_path w :
  save_output order items output_path w
  = (Ok (),
     World (match written order items output_path with
            | Some content => <[output_path := content]> (files w)
            | None => files w
            end)
       (stdout w ++ [report items output_path]) (stderr w)).
Proof.
  unfold save_output, written, report.
  destruct (endswith output_path ".json").
  - unfold mbind, io_bind, open_w, print. by rewrite write_inserted.
  - destruct items as [|it0 items']; [done|].
    set (items := it0 :: items').
    unfold table_rows, table_columns. set (columns := list_of_set _ _).
    unfold mbind at 1, io_bind at 1, open_w.
    unfold mbind at 1, io_bind at 1, Csv.writeheader.
    rewrite writerow_comprehension.
    unfold mbind at 1, io_bind at 1.
    by rewrite (write_rows output_path
                  (λ it k, dict_get_default k (PStr EmptyString) it)).
Qed.

End SaveOutputFacts.





(** X7: the table is rectangular.  For a non-empty batch and a destination
    that does not end in [.json], the file holds only rows: a header and
    one row per record, each with exactly as many cells as the header. *)
Theorem table_is_rectangular
    (order : SetOrder) (items : list dict) (output_path : string) (w : world) :
  items ≠ [] →
  endswith output_path ".json" = false →
  ∃ header rows,
    files (save_output order items output_path w).2 !! output_path
    = Some (CsvRow header :: (CsvRow <$> rows))
    ∧ length rows = length items
    ∧ Forall (λ row, length row = length header) rows.
Proof.
  intros Hitems Hcsv. rewrite save_output_closed. simpl.
  unfold written. rewrite Hcsv. destruct items as [|it0 items']; [done|].
  set (items := it0 :: items').
  exists (PStr <$> table_columns order items),
    ((λ it, (λ k, dict_get_default k (PStr EmptyString) it)
              <$> table_columns order items) <$> items).
  split; [|split].
  - rewrite lookup_insert_eq. unfold table_rows.
    by rewrite <- list_fmap_compose.
  - by rewrite length_fmap.
  - apply Forall_fmap, Forall_forall. intros it _. simpl.
    by rewrite !length_fmap.
Qed.

Lemma table_is_rectangular_witness :
  [[("text", PStr "x")]; [("text", PStr "y"); ("href", PNone)]] ≠ []
  ∧ endswith "results.csv" ".json" = false
  ∧ ∃ header rows,
      files (save_output Dom.order
               [[("text", PStr "x")]; [("text", PStr "y"); ("href", PNone)]]
               "results.csv" Examples.no_files).2 !! "results.csv"
      = Some (CsvRow header :: (CsvRow <$> rows))
      ∧ length rows = 2
      ∧ Forall (λ row, length row = length header) rows.
Proof.
  split; [discriminate|]. split; [reflexivity|].
  apply (table_is_rectangular Dom.order
           [[("text", PStr "x")]; [("text", PStr "y"); ("href", PNone)]]
           "results.csv" Examples.no_files);
    [discriminate | reflexivity].
Defined.


(** * More about [main] and the fetchers *)



(** X10: an HTTP error status is a fetch failure.  Without [--headless],
    when the server answers with a status from 400 to 599, [fetch_static]
    raises although the answer has a body; [main] ends with exit status 2,
    the body is not parsed and nothing is written. *)
Theorem http_error_is_fetch_failure
    (net : Net) (bs : BS4) (lx : LXML) (order : SetOrder)
    (urljoin : string → string → string) (args : Args) (w : world)
    (r : response) :
  args_headless args = false →
  requests_get net (args_url args) (args_timeout args) = Ok r →
  (400 ≤ status_code r < 600)%Z →
  ∃ e,
    fetch_static net (args_url args) (args_timeout args) = Raise e
    ∧ exn_class e = "HTTPError"
    ∧ main net bs lx order urljoin args w
      = (2%Z, World (files w) (stdout w)
                (stderr w ++ ["Failed to fetch page: " +:+ exn_msg e])).
Proof.
  intros Hhead Hget Hstatus.
  assert (∃ e, raise_for_status r = Raise e ∧ exn_class e = "HTTPError")
    as (e & He & Hclass).
  { unfold raise_for_status.
    destruct (decide (status_code r < 500)%Z).
    - rewrite (proj2 (Z.leb_le _ _)), (proj2 (Z.ltb_lt _ _)) by lia.
      simpl. eauto.
    - rewrite (proj2 (Z.ltb_ge _ _)), andb_false_r by lia.
      rewrite (proj2 (Z.leb_le _ _)), (proj2 (Z.ltb_lt _ _)) by lia.
      simpl. eauto. }
  assert (fetch_static net (args_url args) (args_timeout args) = Raise e)
    as Hfetch.
  { unfold fetch_static. rewrite Hget. simpl. by rewrite He. }
  exists e. split; [done|]. split; [done|].
  unfold main, fetch_stage. by rewrite Hhead, Hfetch.
Qed.

Lemma http_error_is_fetch_failure_witness :
  args_headless Runs.links_csv = false
  ∧ requests_get Runs.net_404 (args_url Runs.links_csv) (args_timeout Runs.links_csv)
    = Ok (Response 404 "<p>not found</p>")
  ∧ (400 ≤ status_code (Response 404 "<p>not found</p>") < 600)%Z
  ∧ ∃ e,
      fetch_static Runs.net_404 (args_url Runs.links_csv)
        (args_timeout Runs.links_csv) = Raise e
      ∧ exn_class e = "HTTPError"
      ∧ main Runs.net_404 Dom.bs4 Dom.lxml Dom.order Dom.urljoin Runs.links_csv
          Runs.old_files
        = (2%Z, World (files Runs.old_files) (stdout Runs.old_files)
                  (stderr Runs.old_files ++ ["Failed to fetch page: " +:+ exn_msg e])).
Proof.
  split; [reflexivity|]. split; [reflexivity|]. split; [simpl; lia|].
  apply (http_error_is_fetch_failure Runs.net_404 Dom.bs4 Dom.lxml Dom.order
           Dom.urljoin Runs.links_csv Runs.old_files
           (Response 404 "<p>not found</p>"));
    [reflexivity | reflexivity | simpl; lia].
Defined.

(** X11: with [--headless] and the selenium imports missing, the fetch
    raises a [RuntimeError] without any request being made: [main] ends
    with exit status 2 and the installation hint on the standard error
    stream, whatever a plain request for the page would have returned.
    There is no fall-back to [fetch_static]. *)
Theorem headless_without_selenium
    (net : Net) (bs : BS4) (lx : LXML) (order : SetOrder)
    (urljoin : string → string → string) (args : Args) (w : world) :
  args_headless args = true →
  SELENIUM_AVAILABLE net = false →
  fetch_stage net args
  = Raise (RuntimeError
      "Selenium or webdriver-manager not installed. Install requirements or run without --headless.")
  ∧ main net bs lx order urljoin args w
    = (2%Z, World (files w) (stdout w)
              (stderr w ++ ["Failed to fetch page: Selenium or webdriver-manager not installed. Install requirements or run without --headless."])).
Proof.
  intros Hhead Hsel.
  assert (fetch_stage net args
          = Raise (RuntimeError
              "Selenium or webdriver-manager not installed. Install requirements or run without --headless."))
    as Hfetch.
  { unfold fetch_stage, fetch_with_selenium. by rewrite Hhead, Hsel. }
  split; [done|]. unfold main. by rewrite Hfetch.
Qed.

Lemma headless_without_selenium_witness :
  args_headless Runs.headless = true
  ∧ SELENIUM_AVAILABLE RunExamples.net = false
  ∧ fetch_static RunExamples.net (args_url Runs.headless) (args_timeout Runs.headless)
    = Ok Examples.links_page
  ∧ fetch_stage RunExamples.net Runs.headless
    = Raise (RuntimeError
        "Selenium or webdriver-manager not installed. Install requirements or run without --headless.")
  ∧ main RunExamples.net Dom.bs4 Dom.lxml Dom.order Dom.urljoin Runs.headless
      Examples.no_files
    = (2%Z, World (files Examples.no_files) (stdout Examples.no_files)
              (stderr Examples.no_files ++ ["Failed to fetch page: Selenium or webdriver-manager not installed. Install requirements or run without --headless."])).
Proof.
  do 3 (split; [reflexivity|]).
  apply (headless_without_selenium RunExamples.net Dom.bs4 Dom.lxml Dom.order
           Dom.urljoin Runs.headless Examples.no_files);
    reflexivity.
Defined.

(** X12: a query without matches and a destination that is not a [.json]
    file.  When the fetch returns and the query stage returns no record,
    [main] opens no file: it prints [No items to write.] and ends with exit
    status 0, every file as it was. *)
Theorem no_match_run_succeeds
    (net : Net) (bs : BS4) (lx : LXML) (order : SetOrder)
    (urljoin : string → string → string) (args : Args) (w : world)
    (html : string) :
  fetch_stage net args = Ok html →
  parse_stage bs lx urljoin args html = Ok [] →
  endswith (args_output args) ".json" = false →
  main net bs lx order urljoin args w
  = (0%Z, World (files w) (stdout w ++ ["No items to write."]) (stderr w)).
Proof.
  intros Hfetch Hparse Hcsv. unfold main. rewrite Hfetch, Hparse.
  unfold save_output. by rewrite Hcsv.
Qed.

Lemma no_match_run_succeeds_witness :
  fetch_stage RunExamples.net Runs.no_match = Ok Examples.links_page
  ∧ parse_stage Dom.bs4 Dom.lxml Dom.urljoin Runs.no_match Examples.links_page
    = Ok []
  ∧ endswith (args_output Runs.no_match) ".json" = false
  ∧ main RunExamples.net Dom.bs4 Dom.lxml Dom.order Dom.urljoin Runs.no_match
      Runs.old_files
    = (0%Z, World (files Runs.old_files)
              (stdout Runs.old_files ++ ["No items to write."])
              (stderr Runs.old_files)).
Proof.
  do 3 (split; [reflexivity|]).
  apply (no_match_run_succeeds RunExamples.net Dom.bs4 Dom.lxml Dom.order
           Dom.urljoin Runs.no_match Runs.old_files Examples.links_page);
    reflexivity.
Defined.


(** * More about the record builder *)

Section RecordFacts.

Lemma NoDup_dict_keys_set k v (d : dict) :
  NoDup (dict_keys d) → NoDup (dict_keys (dict_set k v d)).
Proof.
  induction d as [|[k0 v0] d IH]; simpl; intros Hd.
  - apply NoDup_singleton.
  - apply NoDup_cons in Hd as [Hk0 Hd].
    destruct (decide (k0 = k)) as [->|Hne]; simpl.
    + by apply NoDup_cons.
    + apply NoDup_cons. split; [|by apply IH].
      fold (dict_keys (dict_set k v d)). rewrite dict_keys_set.
      intros [?|?]; [done|]. by apply Hk0.
Qed.

(** The [if attr:] block adds the key of a requested attribute and no
    other. *)
Lemma set_attr_keys urljoin attr base_url get (d d' : dict) :
  set_attr urljoin attr base_url get d = Ok d' →
  NoDup (dict_keys d) →
  NoDup (dict_keys d')
  ∧ ∀ k, k ∈ dict_keys d'
         ↔ k ∈ dict_keys d ∨ (attr = Some k ∧ str_truthy k = true).
Proof.
  unfold set_attr. intros Hset Hd.
  destruct attr as [a|]; [destruct (str_truthy a) eqn:Ha|].
  - destruct (resolve urljoin a base_url (get a)) as [v|]; [|done].
    injection Hset as <-. split; [by apply NoDup_dict_keys_set|].
    intros k. rewrite dict_keys_set. split.
    + intros [->|?]; auto.
    + intros [?|[[= <-] _]]; auto.
  - injection Hset as <-. split; [done|]. intros k. split; [auto|].
    intros [?|[[= <-] ?]]; [done | congruence].
  - injection Hset as <-. split; [done|]. intros k. split; [auto|].
    by intros [?|[? _]].
Qed.

(** The keys after the last two assignments of the loop body. *)
Lemma tag_html_shape (text : bool) (attr : option string) t h x (d : dict) :
  NoDup (dict_keys d) →
  (∀ k, k ∈ dict_keys d
        ↔ k ∈ dict_keys (if text then [("text", x)] else [])
          ∨ (attr = Some k ∧ str_truthy k = true)) →
  NoDup (dict_keys (dict_set "html" h (dict_set "tag" t d)))
  ∧ ∀ k, k ∈ dict_keys (dict_set "html" h (dict_set "tag" t d))
         ↔ k = "tag" ∨ k = "html" ∨ (text = true ∧ k = "text")
           ∨ (attr = Some k ∧ str_truthy k = true).
Proof.
  intros Hd Hkeys. split; [by do 2 apply NoDup_dict_keys_set|].
  intros k. rewrite tag_html_keys, Hkeys.
  destruct text; unfold dict_keys; simpl.
  - rewrite list_elem_of_singleton. split.
    + intros [?|[?|[?|?]]]; auto.
    + intros [?|[?|[[_ ?]|?]]]; auto.
  - rewrite elem_of_nil. split.
    + intros [?|[?|[[]|?]]]; auto.
    + intros [?|[?|[[? _]|?]]]; auto. done.
Qed.

Lemma NoDup_text_keys (text : bool) x :
  NoDup (dict_keys (if text then [("text", x)] else [])).
Proof. destruct text; [apply NoDup_singleton | apply NoDup_nil_2]. Qed.

End RecordFacts.

Section MoreLoopFacts.

Context {A B : Type} (f : A → result B).

(** The loop returns exactly the results of its body, item by item. *)
Lemma for_each_Forall2 xs ys :
  for_each f xs = Ok ys ↔ Forall2 (λ x y, f x = Ok y) xs ys.
Proof.
  revert ys. induction xs as [|x xs IH]; intros ys; simpl.
  - split; [intros [= <-]; constructor | by intros ->%Forall2_nil_inv_l].
  - split.
    + destruct (f x) as [y|] eqn:Hy; simpl; [|done].
      destruct (for_each f xs) as [ys'|]; simpl; [|done].
      intros [= <-]. constructor; [done | by apply IH].
    + intros (y & ys' & Hy & Hys & ->)%Forall2_cons_inv_l.
      rewrite Hy. simpl. apply IH in Hys. by rewrite Hys.
Qed.

(** One failing item fails the loop. *)
Lemma for_each_raise xs x e :
  x ∈ xs → f x = Raise e → ∃ e', for_each f xs = Raise e'.
Proof.
  induction xs as [|x0 xs IH]; intros Hx He; [by apply elem_of_nil in Hx|].
  simpl. apply elem_of_cons in Hx as [<-|Hx].
  - rewrite He. simpl. eauto.
  - destruct (f x0); simpl; [|eauto].
    destruct (IH Hx He) as [e' ->]. simpl. eauto.
Qed.

Lemma for_each_all_ok xs :
  (∀ x, x ∈ xs → ∃ y, f x = Ok y) →
  ∃ ys, for_each f xs = Ok ys ∧ length ys = length xs.
Proof.
  induction xs as [|x xs IH]; intros Hok; simpl; [by exists []|].
  destruct (Hok x) as [y ->]; [apply list_elem_of_here|].
  destruct IH as (ys & -> & Hlen).
  { intros x' Hx'. apply Hok. by apply list_elem_of_further. }
  exists (y :: ys). simpl. by rewrite Hlen.
Qed.

End MoreLoopFacts.

(** X13: the keys of the record of an element.  The record has no key
    twice; its keys are [tag], [html], [text] when text extraction is on,
    and the name of the requested attribute when one is requested (a
    non-empty name), and no other; [tag] always holds the tag name of the
    element, also when the requested attribute is itself named [tag].
    Both strategies. *)
Theorem element_record_keys
    (bs : BS4) (lx : LXML) (urljoin : string → string → string)
    (base_url : string) (attr : option string) (text : bool) :
  (∀ el item,
     selector_item bs urljoin base_url attr text el = Ok item →
     NoDup (dict_keys item)
     ∧ dict_get "tag" item = Some (PStr (tag_name bs el))
     ∧ ∀ k, k ∈ dict_keys item
            ↔ k = "tag" ∨ k = "html" ∨ (text = true ∧ k = "text")
              ∨ (attr = Some k ∧ str_truthy k = true))
  ∧ (∀ n, ∃ item,
       xpath_item_record lx urljoin base_url attr text (XElem n) = Ok item
       ∧ NoDup (dict_keys item)
       ∧ dict_get "tag" item = Some (PStr (elem_tag lx n))
       ∧ ∀ k, k ∈ dict_keys item
              ↔ k = "tag" ∨ k = "html" ∨ (text = true ∧ k = "text")
                ∨ (attr = Some k ∧ str_truthy k = true)).
Proof.
  split.
  - intros el item. unfold selector_item.
    destruct (set_attr _ _ _ _ _) as [d|] eqn:Hset; [|done].
    intros [= <-].
    apply set_attr_keys in Hset as [Hd Hkeys];
      [|apply NoDup_text_keys].
    split; [|split].
    + by do 2 apply NoDup_dict_keys_set.
    + rewrite dict_get_set_ne by done. apply dict_get_set_eq.
    + by eapply tag_html_shape.
  - intros n.
    destruct (xpath_item_record lx urljoin base_url attr text (XElem n))
      as [item|e] eqn:Hrec;
      [|by rewrite xpath_item_record_elem in Hrec].
    exists item. split; [done|]. unfold xpath_item_record in Hrec.
    destruct (set_attr _ _ _ _ _) as [d|] eqn:Hset; [|done].
    injection Hrec as <-.
    apply set_attr_keys in Hset as [Hd Hkeys];
      [|apply NoDup_text_keys].
    split; [|split].
    + by do 2 apply NoDup_dict_keys_set.
    + rewrite dict_get_set_ne by done. apply dict_get_set_eq.
    + by eapply tag_html_shape.
Qed.

Lemma element_record_keys_witness :
  (∃ item,
     selector_item Dom.bs4 Dom.urljoin Examples.base (Some "tag") true
       Examples.a_link = Ok item
     ∧ NoDup (dict_keys item)
     ∧ dict_get "tag" item = Some (PStr "a")
     ∧ ∀ k, k ∈ dict_keys item
            ↔ k = "tag" ∨ k = "html" ∨ (true = true ∧ k = "text")
              ∨ (Some "tag" = Some k ∧ str_truthy k = true))
  ∧ (∃ item,
       xpath_item_record Dom.lxml Dom.urljoin Examples.base (Some "href") false
         (XElem Examples.a_link) = Ok item
       ∧ NoDup (dict_keys item)
       ∧ dict_get "tag" item = Some (PStr "a")
       ∧ ∀ k, k ∈ dict_keys item
              ↔ k = "tag" ∨ k = "html" ∨ (false = true ∧ k = "text")
                ∨ (Some "href" = Some k ∧ str_truthy k = true)).
Proof.
  split.
  - destruct (element_record_keys Dom.bs4 Dom.lxml Dom.urljoin Examples.base
                (Some "tag") true) as [Hsel _].
    eexists. split; [reflexivity|]. apply (Hsel Examples.a_link). reflexivity.
  - destruct (element_record_keys Dom.bs4 Dom.lxml Dom.urljoin Examples.base
                (Some "href") false) as [_ Hpath].
    apply (Hpath Examples.a_link).
Defined.

(** X14: the records of the Selector Strategy follow the matches.  On
    markup that parses and a selector the engine accepts, the call returns
    a sequence exactly when the loop body returns for every matched
    element, and then it is the sequence of their records, one per element
    and in the order of the matches.  If the body raises for one element
    the whole call raises: there is no partial result.  When the requested
    attribute is not [href] or [src] (or none is requested) the body never
    raises and the call returns. *)
Theorem selector_records_follow_matches
    (bs : BS4) (urljoin : string → string → string)
    (html selector base_url : string) (attr : option string) (text : bool)
    (soup : Soup bs) (elems : list (Tag bs)) :
  BeautifulSoup bs html = Ok soup →
  select bs soup selector = Ok elems →
  (∀ records,
     parse_with_selector bs urljoin html selector base_url attr text = Ok records
     ↔ Forall2 (λ el r, selector_item bs urljoin base_url attr text el = Ok r)
         elems records)
  ∧ (∀ el e,
       el ∈ elems →
       selector_item bs urljoin base_url attr text el = Raise e →
       ∃ e', parse_with_selector bs urljoin html selector base_url attr text
             = Raise e')
  ∧ ((∀ a, attr = Some a → is_url_attr a = false) →
     ∃ records,
       parse_with_selector bs urljoin html selector base_url attr text = Ok records
       ∧ length records = length elems).
Proof.
  intros Hsoup Hsel. unfold parse_with_selector.
  rewrite Hsoup. simpl. rewrite Hsel. simpl. split; [|split].
  - intros records. apply for_each_Forall2.
  - intros el e. apply for_each_raise.
  - intros Hattr. apply for_each_all_ok. intros el _.
    unfold selector_item, set_attr.
    destruct attr as [a|]; [|eauto].
    destruct (str_truthy a); [|eauto].
    rewrite resolve_other_attr by auto. simpl. eauto.
Qed.

Lemma selector_records_follow_matches_witness :
  BeautifulSoup Dom.bs4 Examples.links_page
  = Ok (Dom.Elem "[document]" []
          [Dom.Elem "div" [] [Examples.a_link; Examples.a_empty; Examples.a_plain]])
  ∧ select Dom.bs4
      (Dom.Elem "[document]" []
         [Dom.Elem "div" [] [Examples.a_link; Examples.a_empty; Examples.a_plain]])
      "a"
    = Ok [Examples.a_link; Examples.a_empty; Examples.a_plain]
  ∧ ∃ records,
      parse_with_selector Dom.bs4 Dom.urljoin Examples.links_page "a"
        Examples.base (Some "href") true = Ok records
      ∧ Forall2 (λ el r, selector_item Dom.bs4 Dom.urljoin Examples.base
                           (Some "href") true el = Ok r)
          [Examples.a_link; Examples.a_empty; Examples.a_plain] records.
Proof.
  do 2 (split; [reflexivity|]).
  destruct (selector_records_follow_matches Dom.bs4 Dom.urljoin
              Examples.links_page "a" Examples.base (Some "href") true
              (Dom.Elem "[document]" []
                 [Dom.Elem "div" []
                    [Examples.a_link; Examples.a_empty; Examples.a_plain]])
              [Examples.a_link; Examples.a_empty; Examples.a_plain]
              eq_refl eq_refl) as (Hiff & _ & _).
  eexists. split; [vm_compute; reflexivity|].
  apply Hiff. vm_compute. reflexivity.
Defined.

(** X15: queries that return a scalar.  When the XPath query returns a
    number or a boolean instead of a list, the loop cannot walk the result
    and [parse_with_xpath] raises a [TypeError]; when it returns one
    string, the loop walks it character by character and the result has
    one record per character, each with the single field [text]. *)
Theorem scalar_xpath_results
    (lx : LXML) (urljoin : string → string → string)
    (html q base_url : string) (attr : option string) (text : bool)
    (doc : Element lx) :
  fromstring lx html = Ok doc →
  (xpath lx doc q = Ok XNumber ∨ xpath lx doc q = Ok XBool →
   ∃ e, parse_with_xpath lx urljoin html (Some q) base_url attr text = Raise e
        ∧ exn_class e = "TypeError")
  ∧ (∀ s, xpath lx doc q = Ok (XString s) →
       ∃ records,
         parse_with_xpath lx urljoin html (Some q) base_url attr text = Ok records
         ∧ length records = String.length s
         ∧ ∀ i c, String.get i s = Some c →
             records !! i = Some [("text", PStr (String c EmptyString))]).
Proof.
  intros Hdoc. split.
  - unfold parse_with_xpath. rewrite Hdoc. simpl.
    intros [-> | ->]; simpl; eauto.
  - intros s Hq. eexists. split.
    + eapply parse_with_xpath_total; [done | exact Hq | reflexivity].
    + clear. split.
      * rewrite !length_fmap. induction s as [|c s IH]; simpl; [done|].
        by rewrite IH.
      * induction s as [|c0 s IH]; intros i c Hi; [done|].
        destruct i as [|i]; simpl in *.
        -- by injection Hi as <-.
        -- by apply IH.
Qed.

Lemma scalar_xpath_results_witness :
  fromstring Scalar.lxml Examples.spaced_page
  = Ok (Dom.Elem "[document]" [] [Examples.spaced_p])
  ∧ xpath Scalar.lxml (Dom.Elem "[document]" [] [Examples.spaced_p]) "count(//b)"
    = Ok XNumber
  ∧ xpath Scalar.lxml (Dom.Elem "[document]" [] [Examples.spaced_p]) "string(//b)"
    = Ok (XString " b ")
  ∧ (∃ e, parse_with_xpath Scalar.lxml Dom.urljoin Examples.spaced_page
            (Some "count(//b)") Examples.base None true = Raise e
          ∧ exn_class e = "TypeError")
  ∧ (∃ records,
       parse_with_xpath Scalar.lxml Dom.urljoin Examples.spaced_page
         (Some "string(//b)") Examples.base None true = Ok records
       ∧ length records = 3
       ∧ ∀ i c, String.get i " b " = Some c →
           records !! i = Some [("text", PStr (String c EmptyString))]).
Proof.
  do 3 (split; [reflexivity|]).
  split.
  - destruct (scalar_xpath_results Scalar.lxml Dom.urljoin Examples.spaced_page
                "count(//b)" Examples.base None true
                (Dom.Elem "[document]" [] [Examples.spaced_p]) eq_refl)
      as [Hscalar _].
    apply Hscalar. left. reflexivity.
  - destruct (scalar_xpath_results Scalar.lxml Dom.urljoin Examples.spaced_page
                "string(//b)" Examples.base None true
                (Dom.Elem "[document]" [] [Examples.spaced_p]) eq_refl)
      as [_ Hstring].
    apply (Hstring " b "). reflexivity.
Defined.

(** X16: the two loop bodies build the same record.  For an element that
    both libraries describe alike (the same tag name, the same markup, the
    same value for the requested attribute, and, when text extraction is
    on, [get_text(strip=True)] equal to the stripped concatenation of
    [itertext()]), the Selector Strategy and the Path Strategy give the
    same outcome: the same record, with the keys in the same order, or an
    exception in both. *)
Theorem strategies_build_same_record
    (bs : BS4) (lx : LXML) (urljoin : string → string → string)
    (base_url : string) (attr : option string) (text : bool)
    (el : Tag bs) (n : Element lx) :
  tag_name bs el = elem_tag lx n →
  tag_str bs el = tostring lx n →
  (∀ a, attr = Some a → tag_get bs el a = elem_get_val lx n a) →
  (text = true →
   get_text_strip bs el = strip (join EmptyString (itertext lx n))) →
  selector_item bs urljoin base_url attr text el
  = xpath_item_record lx urljoin base_url attr text (XElem n).
Proof.
  intros Htag Hstr Hget Htext. unfold selector_item, xpath_item_record.
  rewrite Htag, Hstr.
  assert ((if text then dict_set "text" (PStr (get_text_strip bs el)) [] else [])
          = (if text
             then dict_set "text"
                    (PStr (strip (join EmptyString (itertext lx n)))) []
             else [])) as ->.
  { destruct text; [|done]. by rewrite Htext. }
  destruct attr as [a|]; [|done].
  unfold set_attr. by rewrite (Hget a).
Qed.

Lemma strategies_build_same_record_witness :
  tag_name Dom.bs4 Examples.a_link = elem_tag Dom.lxml Examples.a_link
  ∧ tag_str Dom.bs4 Examples.a_link = tostring Dom.lxml Examples.a_link
  ∧ (∀ a, Some "href" = Some a →
          tag_get Dom.bs4 Examples.a_link a = elem_get_val Dom.lxml Examples.a_link a)
  ∧ (true = true →
     get_text_strip Dom.bs4 Examples.a_link
     = strip (join EmptyString (itertext Dom.lxml Examples.a_link)))
  ∧ selector_item Dom.bs4 Dom.urljoin Examples.base (Some "href") true
      Examples.a_link
    = xpath_item_record Dom.lxml Dom.urljoin Examples.base (Some "href") true
        (XElem Examples.a_link)
  ∧ selector_item Dom.bs4 Dom.urljoin Examples.base (Some "href") true
      Examples.a_link
    = Ok [("text", PStr "link"); ("href", PStr "https://x.com/a/b");
          ("tag", PStr "a"); ("html", PStr (Dom.to_markup Examples.a_link))].
Proof.
  assert (∀ a, Some "href" = Some a →
               tag_get Dom.bs4 Examples.a_link a
               = elem_get_val Dom.lxml Examples.a_link a) as Hget.
  { intros a [= <-]. reflexivity. }
  do 2 (split; [reflexivity|]). split; [exact Hget|].
  split; [reflexivity|]. split; [|reflexivity].
  apply (strategies_build_same_record Dom.bs4 Dom.lxml Dom.urljoin Examples.base
           (Some "href") true Examples.a_link Examples.a_link);
    [reflexivity | reflexivity | exact Hget | reflexivity].
Defined.
